(** * MAX30003 HAL driver: a shallow embedding and its properties

    The development follows [max30003.c] (register transport, FIFO burst
    read, interrupt status) and [max30003_example.c] (interrupt handler,
    register configuration).  C integers are modelled as [Z] with the
    conversions to [uint8_t] and [uint32_t] written out; the SPI bus and the
    chip-select line are modelled by a trace of HAL calls and a script of
    replies of the SPI peripheral. *)

From Stdlib Require Import ZArith List Lia Permutation.
From stdpp Require Import base list.
Import ListNotations.

Local Open Scope Z_scope.

(** ** Fixed-width integers *)

(** Conversion to [uint8_t]. *)
Definition u8 (x : Z) : Z := x mod 2 ^ 8.

(** Conversion to [uint32_t]. *)
Definition u32 (x : Z) : Z := x mod 2 ^ 32.

(** ** Constants of [max30003.h] *)

Definition MAX30003_INT_EINT : Z := Z.shiftl 1 23.
Definition MAX30003_INT_EOVF : Z := Z.shiftl 1 22.
Definition MAX30003_INT_FSTINT : Z := Z.shiftl 1 21.
Definition MAX30003_INT_DCLOFFINT : Z := Z.shiftl 1 20.
Definition MAX30003_INT_LONINT : Z := Z.shiftl 1 11.
Definition MAX30003_INT_RRINT : Z := Z.shiftl 1 10.
Definition MAX30003_INT_SAMP : Z := Z.shiftl 1 9.
Definition MAX30003_INT_PLLINT : Z := Z.shiftl 1 8.

Definition MAX30003_SPI_TIMEOUT : Z := 100.
Definition MAX30003_FIFO_LENGTH : Z := 32.

Definition MAX30003_REG_STATUS : Z := 0x01.
Definition MAX30003_REG_EN_INT : Z := 0x02.
Definition MAX30003_REG_EN_INT2 : Z := 0x03.
Definition MAX30003_REG_MNGR_INT : Z := 0x04.
Definition MAX30003_REG_MNGR_DYN : Z := 0x05.
Definition MAX30003_REG_FIFO_RST : Z := 0x0A.
Definition MAX30003_REG_CNFG_GEN : Z := 0x10.
Definition MAX30003_REG_CNFG_CAL : Z := 0x12.
Definition MAX30003_REG_CNFG_EMUX : Z := 0x14.
Definition MAX30003_REG_CNFG_ECG : Z := 0x15.
Definition MAX30003_REG_CNFG_RTOR1 : Z := 0x1D.
Definition MAX30003_REG_CNFG_RTOR2 : Z := 0x1E.

Definition MAX30003_FIFO_CMD_ECG_BURST : Z := 0x20.
Definition MAX30003_FIFO_CMD_ECG : Z := 0x21.

Definition MAX30003_ETAG_MASK : Z := 0x07.
Definition MAX30003_ETAG_SHIFT : Z := 3.
Definition MAX30003_ECG_VOLTAGE_DATA_MASK : Z := 0x3FFFF.
Definition MAX30003_ECG_VOLTAGE_DATA_SHIFT : Z := 6.

Definition MAX30003_FIFO_RST_D : Z := Z.shiftl 0x000000 0.

(** ** FIFO word decoding ([max30003.c], lines 40-51) *)

(** [uint8_t MAX30003_ExtractETag(uint32_t fifo_data)]: the result of the
    32-bit expression is converted to the return type [uint8_t]. *)
Definition MAX30003_ExtractETag (fifo_data : Z) : Z :=
  u8 (Z.land (Z.shiftr fifo_data MAX30003_ETAG_SHIFT) MAX30003_ETAG_MASK).

(** [uint32_t MAX30003_ExtractECGData(uint32_t fifo_data)]. *)
Definition MAX30003_ExtractECGData (fifo_data : Z) : Z :=
  Z.land (Z.shiftr fifo_data MAX30003_ECG_VOLTAGE_DATA_SHIFT)
         MAX30003_ECG_VOLTAGE_DATA_MASK.

(** ** The environment: HAL status codes, the bus and the chip-select line

    [HAL_StatusTypeDef], [HAL_GPIO_WritePin], [HAL_SPI_TransmitReceive] and
    [HAL_SPI_Transmit] belong to the STM32 HAL, which the driver reaches
    through [main.h] and which is not among the sources.  They are modelled
    as calls recorded in a trace; what the SPI peripheral answers to its
    n-th transfer is given by a script. *)

(** Modelled from the spec: the status type of the HAL, declared behind
    [main.h].  [HAL_OK] and [HAL_ERROR] occur in [max30003.c]; the transport
    errors of the spec are a bus failure and a timeout; [HAL_BUSY] is the
    fourth value of the HAL's type. *)
Inductive HAL_StatusTypeDef : Set :=
| HAL_OK
| HAL_ERROR
| HAL_BUSY
| HAL_TIMEOUT.

#[global] Instance HAL_StatusTypeDef_eq_dec : EqDecision HAL_StatusTypeDef.
Proof. solve_decision. Defined.

(** Modelled from the spec: the two levels of the chip-select line, the
    HAL's [GPIO_PinState].  The line is active low: [GPIO_PIN_RESET] asserts
    chip select, [GPIO_PIN_SET] releases it. *)
Inductive GPIO_PinState : Set :=
| GPIO_PIN_RESET
| GPIO_PIN_SET.

(** [MAX30003_HandleTypeDef]: the two pointers are kept as opaque addresses. *)
Record MAX30003_HandleTypeDef : Set := {
  hspi : Z;
  cs_port : Z;
  cs_pin : Z
}.

(** One call into the HAL, with the bytes handed to the peripheral. *)
Inductive HAL_Call : Set :=
| GPIO_WritePin (port pin : Z) (state : GPIO_PinState)
| SPI_TransmitReceive (spi : Z) (tx : list Z) (size timeout : Z)
| SPI_Transmit (spi : Z) (tx : list Z) (size timeout : Z).

(** The answer of the peripheral to one transfer: the status the HAL call
    returns and the bytes that were clocked in before it returned (fewer
    than requested, or none, when the transfer did not complete). *)
Record SPI_Reply : Set := {
  reply_status : HAL_StatusTypeDef;
  reply_rx : list Z
}.

Record World : Type := {
  spi_script : nat -> SPI_Reply;
  spi_count : nat;
  calls : list HAL_Call
}.

(** Record a call that is not an SPI transfer. *)
Definition log_call (c : HAL_Call) (w : World) : World :=
  {| spi_script := spi_script w;
     spi_count := spi_count w;
     calls := calls w ++ [c] |}.

(** Record an SPI transfer and move to the next entry of the script. *)
Definition log_transfer (c : HAL_Call) (w : World) : World :=
  {| spi_script := spi_script w;
     spi_count := S (spi_count w);
     calls := calls w ++ [c] |}.

(** A computation either returns a value or performs a store that C leaves
    undefined (through a null pointer, or outside the caller's array). *)
Inductive Outcome (A : Type) : Type :=
| Done (a : A) (w : World)
| Fault (w : World).

Arguments Done {A} a w.
Arguments Fault {A} w.

Definition M (A : Type) : Type := World -> Outcome A.

Definition ret {A : Type} (a : A) : M A := fun w => Done a w.

Definition bind {A B : Type} (c : M A) (k : A -> M B) : M B :=
  fun w =>
    match c w with
    | Done a w' => k a w'
    | Fault w' => Fault w'
    end.

Notation "'let*' p ':=' c 'in' k" := (bind c (fun p => k))
  (at level 10, p as pattern, c at level 100, k at level 200).

(** [if (cond) call(...);] where the value of the call is dropped. *)
Definition when_ {A : Type} (cond : bool) (c : M A) : M unit :=
  if cond then (let* _ := c in ret tt) else ret tt.

(** The receive buffer after a transfer of [size] bytes: the bytes that
    arrived overwrite the front of the buffer, the rest keeps its content. *)
Definition receive (arrived : list Z) (size : nat) (rx_data : list Z) : list Z :=
  let got := map u8 (take size arrived) in
  got ++ drop (length got) rx_data.

(** Modelled from the spec: the chip-select actuator.  The call drives the
    pin and returns nothing. *)
Definition HAL_GPIO_WritePin (port pin : Z) (state : GPIO_PinState) : M unit :=
  fun w => Done tt (log_call (GPIO_WritePin port pin state) w).

(** Modelled from the spec: the full-duplex byte-exchange primitive.  It
    sends [size] bytes of [tx_data], stores what arrives in [rx_data] and
    returns the status of the transfer. *)
Definition HAL_SPI_TransmitReceive (spi : Z) (tx_data rx_data : list Z)
    (size timeout : Z) : M (HAL_StatusTypeDef * list Z) :=
  fun w =>
    let r := spi_script w (spi_count w) in
    Done (reply_status r, receive (reply_rx r) (Z.to_nat size) rx_data)
         (log_transfer
            (SPI_TransmitReceive spi (take (Z.to_nat size) tx_data) size timeout) w).

(** Modelled from the spec: the transmit-only transfer of the HAL.  It
    sends [size] bytes of [tx_data] and returns the status; nothing is
    received. *)
Definition HAL_SPI_Transmit (spi : Z) (tx_data : list Z) (size timeout : Z)
    : M HAL_StatusTypeDef :=
  fun w =>
    Done (reply_status (spi_script w (spi_count w)))
         (log_transfer
            (SPI_Transmit spi (take (Z.to_nat size) tx_data) size timeout) w).

(** A [uint32_t *] argument: null, or an array of the caller with its
    current content. *)
Inductive u32_ptr : Set :=
| NULL
| Array (cells : list Z).

(** [p[i] = v]. *)
Definition store_u32 (p : u32_ptr) (i : nat) (v : Z) : M u32_ptr :=
  fun w =>
    match p with
    | NULL => Fault w
    | Array cells =>
        if decide (i < length cells)%nat
        then Done (Array (<[i := v]> cells)) w
        else Fault w
    end.

(** ** Register transport ([max30003.c], lines 84-138) *)

Definition MAX30003_SPI_TransmitReceive (hmax : MAX30003_HandleTypeDef)
    (tx_data rx_data : list Z) (size : Z) : M (HAL_StatusTypeDef * list Z) :=
  let* _ := HAL_GPIO_WritePin (cs_port hmax) (cs_pin hmax) GPIO_PIN_RESET in
  let* r := HAL_SPI_TransmitReceive (hspi hmax) tx_data rx_data size
         MAX30003_SPI_TIMEOUT in
  let* _ := HAL_GPIO_WritePin (cs_port hmax) (cs_pin hmax) GPIO_PIN_SET in
  ret r.

(** [((uint32_t)rx_buf[1] << 16) | ((uint32_t)rx_buf[2] << 8) | rx_buf[3]],
    the expression of both [MAX30003_ReadReg] and [MAX30003_ReadFIFO]. *)
Definition rx_word (rx_buf : list Z) : Z :=
  Z.lor (Z.lor (u32 (Z.shiftl (nth 1 rx_buf 0) 16))
               (u32 (Z.shiftl (nth 2 rx_buf 0) 8)))
        (nth 3 rx_buf 0).

(** [data] is the content of [*data] at the call; the second component of
    the result is its content at the return. *)
Definition MAX30003_ReadReg (hmax : MAX30003_HandleTypeDef) (reg : Z) (data : Z)
    : M (HAL_StatusTypeDef * Z) :=
  let tx_buf := [u8 (Z.lor (Z.shiftl reg 1) 0x01); 0; 0; 0] in
  let rx_buf := [0; 0; 0; 0] in
  let* (status, rx_buf) := MAX30003_SPI_TransmitReceive hmax tx_buf rx_buf 4 in
  if decide (status = HAL_OK)
  then ret (status, rx_word rx_buf)
  else ret (status, data).

Definition MAX30003_WriteReg (hmax : MAX30003_HandleTypeDef) (reg : Z) (data : Z)
    : M HAL_StatusTypeDef :=
  let tx_buf := [u8 (Z.land (Z.shiftl reg 1) 0xFE);
                 u8 (Z.land (Z.shiftr data 16) 0xFF);
                 u8 (Z.land (Z.shiftr data 8) 0xFF);
                 u8 (Z.land data 0xFF)] in
  let* _ := HAL_GPIO_WritePin (cs_port hmax) (cs_pin hmax) GPIO_PIN_RESET in
  let* status := HAL_SPI_Transmit (hspi hmax) tx_buf 4 MAX30003_SPI_TIMEOUT in
  let* _ := HAL_GPIO_WritePin (cs_port hmax) (cs_pin hmax) GPIO_PIN_SET in
  ret status.

(** ** FIFO burst read ([max30003.c], lines 147-164) *)

(** The loop [for (uint8_t i = 0; i < count && status == HAL_OK; ++i)]:
    [remaining] is [count - i], so [i < count] reads [remaining <> 0]. *)
Fixpoint ReadFIFO_loop (hmax : MAX30003_HandleTypeDef) (remaining i : nat)
    (tx_buf rx_buf : list Z) (status : HAL_StatusTypeDef) (fifo_data : u32_ptr)
    : M (HAL_StatusTypeDef * u32_ptr) :=
  match remaining with
  | O => ret (status, fifo_data)
  | S remaining' =>
      if decide (status = HAL_OK) then
        let* (status', rx_buf') := MAX30003_SPI_TransmitReceive hmax tx_buf rx_buf 4 in
        let* fifo_data' := store_u32 fifo_data i (rx_word rx_buf') in
        let tx_buf' := if decide (i = 0%nat) then <[0%nat := 0x00]> tx_buf
                       else tx_buf in
        ReadFIFO_loop hmax remaining' (S i) tx_buf' rx_buf' status' fifo_data'
      else ret (status, fifo_data)
  end.

(** [count] is a [uint8_t]. *)
Definition MAX30003_ReadFIFO (hmax : MAX30003_HandleTypeDef)
    (fifo_data : u32_ptr) (count : Z) : M (HAL_StatusTypeDef * u32_ptr) :=
  let tx_buf := [0; 0; 0; 0] in
  let rx_buf := [0; 0; 0; 0] in
  let status := HAL_OK in
  let tx_buf :=
    <[0%nat := u8 (Z.lor (Z.shiftl (if 1 <? count
                                    then MAX30003_FIFO_CMD_ECG_BURST
                                    else MAX30003_FIFO_CMD_ECG) 1) 0x01)]> tx_buf in
  ReadFIFO_loop hmax (Z.to_nat count) 0 tx_buf rx_buf status fifo_data.

(** ** Interrupt status ([max30003.c], lines 172-188) *)

(** [enabled_active] is the content of [*enabled_active] at the call. *)
Definition MAX30003_GetInterruptStatus (hmax : MAX30003_HandleTypeDef)
    (enabled_active : Z) : M (HAL_StatusTypeDef * Z) :=
  let raw_status := 0 in
  let en_int_reg := 0 in
  let* (ret1, raw_status) := MAX30003_ReadReg hmax MAX30003_REG_STATUS raw_status in
  if decide (ret1 <> HAL_OK) then ret (ret1, enabled_active) else
  let* (ret2, en_int_reg) := MAX30003_ReadReg hmax MAX30003_REG_EN_INT en_int_reg in
  if decide (ret2 <> HAL_OK) then ret (ret2, enabled_active) else
  ret (HAL_OK, Z.land (Z.land raw_status en_int_reg) 0xF00F00).

(** ** Interrupt handler ([max30003_example.c], lines 39-63) *)

(** [x & MASK] used as a condition. *)
Definition flag_set (x mask : Z) : bool := negb (Z.land x mask =? 0).

(** The local [enabled_active] is declared without an initialiser: its
    value before the call of [MAX30003_GetInterruptStatus] is whatever the
    stack holds, the argument [enabled_active].  The status returned by
    [MAX30003_GetInterruptStatus] is dropped. *)
Definition MAX30003_IRQHandler (hmax : MAX30003_HandleTypeDef)
    (enabled_active : Z) : M unit :=
  let* (_, enabled_active) := MAX30003_GetInterruptStatus hmax enabled_active in
  let* _ := when_ (flag_set enabled_active MAX30003_INT_EINT)
         (MAX30003_ReadFIFO hmax NULL MAX30003_FIFO_LENGTH) in
  let* _ := when_ (flag_set enabled_active MAX30003_INT_EOVF)
         (MAX30003_WriteReg hmax MAX30003_REG_FIFO_RST MAX30003_FIFO_RST_D) in
  let* _ := when_ (flag_set enabled_active MAX30003_INT_FSTINT) (ret tt) in
  let* _ := when_ (flag_set enabled_active MAX30003_INT_DCLOFFINT) (ret tt) in
  let* _ := when_ (flag_set enabled_active MAX30003_INT_LONINT) (ret tt) in
  let* _ := when_ (flag_set enabled_active MAX30003_INT_RRINT) (ret tt) in
  let* _ := when_ (flag_set enabled_active MAX30003_INT_SAMP) (ret tt) in
  let* _ := when_ (flag_set enabled_active MAX30003_INT_PLLINT) (ret tt) in
  ret tt.

(** ** Register configuration ([max30003_example.c], lines 94-190) *)

(** Bit-field constants of [max30003.h] used by the configuration. *)
Definition MAX30003_EN_INT_EINT_EN : Z := Z.shiftl 1 23.
Definition MAX30003_EN_INT_EOVF_EN : Z := Z.shiftl 1 22.
Definition MAX30003_EN_INT_FSTINT_DIS : Z := Z.shiftl 0 21.
Definition MAX30003_EN_INT_DCLOFFINT_DIS : Z := Z.shiftl 0 20.
Definition MAX30003_EN_INT_LONINT_DIS : Z := Z.shiftl 0 11.
Definition MAX30003_EN_INT_RRINT_DIS : Z := Z.shiftl 0 10.
Definition MAX30003_EN_INT_SAMP_DIS : Z := Z.shiftl 0 9.
Definition MAX30003_EN_INT_PLLINT_DIS : Z := Z.shiftl 0 8.
Definition MAX30003_EN_INT_INTB_TYPE_OPEN_DRAIN_125K_PULLUP : Z := Z.shiftl 0x3 0.
Definition MAX30003_EN_INT_DEFAULT_CONFIG : Z := Z.shiftl 0x000003 0.

Definition MAX30003_MNGR_INT_EFIT_32 : Z := Z.shiftl 0x1F 19.
Definition MAX30003_MNGR_INT_CLR_FAST_DIS : Z := Z.shiftl 0 6.
Definition MAX30003_MNGR_INT_CLR_RRINT_ON_STATUS_REGISTER_READ_BACK : Z :=
  Z.shiftl 0x0 4.
Definition MAX30003_MNGR_INT_CLR_SAMP_SELF_CLEAR : Z := Z.shiftl 1 2.
Definition MAX30003_MNGR_INT_SAMP_IT_EVERY_SAMPLE : Z := Z.shiftl 0x0 0.
Definition MAX30003_MNGR_INT_DEFAULT_CONFIG : Z := Z.shiftl 0x780004 0.

Definition MAX30003_MNGR_DYN_FAST_NORMAL_MODE : Z := Z.shiftl 0x0 22.
Definition MAX30003_MNGR_DYN_FAST_TH_SHIFT : Z := 16.
Definition MAX30003_MNGR_DYN_DEFAULT_CONFIG : Z := Z.shiftl 0x3F0000 0.

Definition MAX30003_CNFG_GEN_EN_ULP_LON_DIS : Z := Z.shiftl 0x0 22.
Definition MAX30003_CNFG_GEN_FMSTR_512HZ_ECG_PROGGRESION : Z := Z.shiftl 0x0 20.
Definition MAX30003_CNFG_GEN_EN_ECG_EN : Z := Z.shiftl 1 19.
Definition MAX30003_CNFG_GEN_EN_DCLOFF_DIS : Z := Z.shiftl 0x0 12.
Definition MAX30003_CNFG_GEN_DCLOFF_IPOL_ECGP_PULLUP : Z := Z.shiftl 0 11.
Definition MAX30003_CNFG_GEN_DCLOFF_IMAG_0nA : Z := Z.shiftl 0x0 8.
Definition MAX30003_CNFG_GEN_DCLOFF_VTH_VMID_PM_300 : Z := Z.shiftl 0x0 6.
Definition MAX30003_CNFG_GEN_EN_RBIAS_DIS : Z := Z.shiftl 0x0 4.
Definition MAX30003_CNFG_GEN_RBIASV_100M : Z := Z.shiftl 0x1 2.
Definition MAX30003_CNFG_GEN_RBIASP_DIS : Z := Z.shiftl 0 1.
Definition MAX30003_CNFG_GEN_RBIASN_DIS : Z := Z.shiftl 0 0.
Definition MAX30003_CNFG_GEN_DEFAULT_CONFIG : Z := Z.shiftl 0x000004 0.

Definition MAX30003_CNFG_CAL_EN_VCAL_DIS : Z := Z.shiftl 0 22.
Definition MAX30003_CNFG_CAL_VMODE_UNIPOLAR : Z := Z.shiftl 0 21.
Definition MAX30003_CNFG_CAL_VMAG_0_25mV : Z := Z.shiftl 0 20.
Definition MAX30003_CNFG_CAL_FCAL_1Hz : Z := Z.shiftl 0x4 12.
Definition MAX30003_CNFG_CAL_FIFTY_DUTY_50 : Z := Z.shiftl 1 11.
Definition MAX30003_CNFG_CAL_THIGH_SHIFT : Z := 0.
Definition MAX30003_CNFG_CAL_DEFAULT_CONFIG : Z := Z.shiftl 0x004800 0.

Definition MAX30003_CNFG_EMUX_POL_NON_INVERTED : Z := Z.shiftl 0 23.
Definition MAX30003_CNFG_EMUX_OPENP_INTERNALLY_ISOLATED : Z := Z.shiftl 1 21.
Definition MAX30003_CNFG_EMUX_OPENN_INTERNALLY_ISOLATED : Z := Z.shiftl 1 20.
Definition MAX30003_CNFG_EMUX_CALP_SEL_NONE : Z := Z.shiftl 0x0 18.
Definition MAX30003_CNFG_EMUX_CALN_SEL_NONE : Z := Z.shiftl 0x0 16.
Definition MAX30003_CNFG_EMUX_DEFAULT_CONFIG : Z := Z.shiftl 0x300000 0.

Definition MAX30003_CNFG_ECG_RATE_512 : Z := Z.shiftl 0x0 22.
Definition MAX30003_CNFG_ECG_GAIN_80 : Z := Z.shiftl 0x2 16.
Definition MAX30003_CNFG_ECG_DHPF_EN : Z := Z.shiftl 1 14.
Definition MAX30003_CNFG_ECG_DLPF_40 : Z := Z.shiftl 0x1 12.
Definition MAX30003_CNFG_ECG_DEFAULT_CONFIG : Z := Z.shiftl 0x805000 0.

Definition MAX30003_CNFG_RTOR_eWNDW_12 : Z := Z.shiftl 0x3 20.
Definition MAX30003_CNFG_RTOR_GAIN_DEFAULT : Z := Z.shiftl 0xF 16.
Definition MAX30003_CNFG_RTOR_EN_RTOR_DIS : Z := Z.shiftl 0 15.
Definition MAX30003_CNFG_RTOR_PAVG_DEFAULT : Z := Z.shiftl 0x2 12.
Definition MAX30003_CNFG_RTOR_PTSF_SHIFT : Z := 8.
Definition MAX30003_CNFG_RTOR2_HOFF_SHIFT : Z := 16.
Definition MAX30003_CNFG_RTOR2_RAVG_DEFAULT : Z := Z.shiftl 0x2 12.
Definition MAX30003_CNFG_RTOR2_RHSF_SHIFT : Z := 8.
Definition MAX30003_CNFG_RTOR_DEFAULT_CONFIG : Z := Z.shiftl 0x3F2300 0.
Definition MAX30003_CNFG_RTOR2_DEFAULT_CONFIG : Z := Z.shiftl 0x202400 0.

(** The C operator [|] on register values; it associates to the left. *)
Notation "a 'OR' b" := (Z.lor a b) (at level 50, left associativity).

(** [if ((ret = call) != HAL_OK) return ret;] followed by [k]. *)
Notation "'TRY' c 'THEN' k" :=
  (bind c (fun ret_ => if decide (ret_ <> HAL_OK) then ret ret_ else k))
  (at level 10, c at level 100, k at level 200).

Definition MAX30003_ConfigureRegistersDefault (hmax : MAX30003_HandleTypeDef)
    : M HAL_StatusTypeDef :=
  TRY MAX30003_WriteReg hmax MAX30003_REG_EN_INT MAX30003_EN_INT_DEFAULT_CONFIG THEN
  TRY MAX30003_WriteReg hmax MAX30003_REG_EN_INT2 MAX30003_EN_INT_DEFAULT_CONFIG THEN
  TRY MAX30003_WriteReg hmax MAX30003_REG_MNGR_INT MAX30003_MNGR_INT_DEFAULT_CONFIG THEN
  TRY MAX30003_WriteReg hmax MAX30003_REG_MNGR_DYN MAX30003_MNGR_DYN_DEFAULT_CONFIG THEN
  TRY MAX30003_WriteReg hmax MAX30003_REG_CNFG_GEN MAX30003_CNFG_GEN_DEFAULT_CONFIG THEN
  TRY MAX30003_WriteReg hmax MAX30003_REG_CNFG_CAL MAX30003_CNFG_CAL_DEFAULT_CONFIG THEN
  TRY MAX30003_WriteReg hmax MAX30003_REG_CNFG_EMUX MAX30003_CNFG_EMUX_DEFAULT_CONFIG THEN
  TRY MAX30003_WriteReg hmax MAX30003_REG_CNFG_ECG MAX30003_CNFG_ECG_DEFAULT_CONFIG THEN
  TRY MAX30003_WriteReg hmax MAX30003_REG_CNFG_RTOR1 MAX30003_CNFG_RTOR_DEFAULT_CONFIG THEN
  TRY MAX30003_WriteReg hmax MAX30003_REG_CNFG_RTOR2 MAX30003_CNFG_RTOR2_DEFAULT_CONFIG THEN
  ret HAL_OK.

Definition EN_INT_value : Z :=
  MAX30003_EN_INT_DEFAULT_CONFIG
  OR MAX30003_EN_INT_EINT_EN
  OR MAX30003_EN_INT_EOVF_EN
  OR MAX30003_EN_INT_FSTINT_DIS
  OR MAX30003_EN_INT_DCLOFFINT_DIS
  OR MAX30003_EN_INT_LONINT_DIS
  OR MAX30003_EN_INT_RRINT_DIS
  OR MAX30003_EN_INT_SAMP_DIS
  OR MAX30003_EN_INT_PLLINT_DIS
  OR MAX30003_EN_INT_INTB_TYPE_OPEN_DRAIN_125K_PULLUP.

Definition MNGR_INT_value : Z :=
  MAX30003_MNGR_INT_DEFAULT_CONFIG
  OR MAX30003_MNGR_INT_EFIT_32
  OR MAX30003_MNGR_INT_CLR_FAST_DIS
  OR MAX30003_MNGR_INT_CLR_RRINT_ON_STATUS_REGISTER_READ_BACK
  OR MAX30003_MNGR_INT_CLR_SAMP_SELF_CLEAR
  OR MAX30003_MNGR_INT_SAMP_IT_EVERY_SAMPLE.

Definition MNGR_DYN_value : Z :=
  MAX30003_MNGR_DYN_DEFAULT_CONFIG
  OR MAX30003_MNGR_DYN_FAST_NORMAL_MODE
  OR (Z.shiftl 0x3F MAX30003_MNGR_DYN_FAST_TH_SHIFT).

Definition CNFG_GEN_value : Z :=
  MAX30003_CNFG_GEN_DEFAULT_CONFIG
  OR MAX30003_CNFG_GEN_EN_ULP_LON_DIS
  OR MAX30003_CNFG_GEN_FMSTR_512HZ_ECG_PROGGRESION
  OR MAX30003_CNFG_GEN_EN_ECG_EN
  OR MAX30003_CNFG_GEN_EN_DCLOFF_DIS
  OR MAX30003_CNFG_GEN_DCLOFF_IPOL_ECGP_PULLUP
  OR MAX30003_CNFG_GEN_DCLOFF_IMAG_0nA
  OR MAX30003_CNFG_GEN_DCLOFF_VTH_VMID_PM_300
  OR MAX30003_CNFG_GEN_EN_RBIAS_DIS
  OR MAX30003_CNFG_GEN_RBIASV_100M
  OR MAX30003_CNFG_GEN_RBIASP_DIS
  OR MAX30003_CNFG_GEN_RBIASN_DIS.

Definition CNFG_CAL_value : Z :=
  MAX30003_CNFG_CAL_DEFAULT_CONFIG
  OR MAX30003_CNFG_CAL_EN_VCAL_DIS
  OR MAX30003_CNFG_CAL_VMODE_UNIPOLAR
  OR MAX30003_CNFG_CAL_VMAG_0_25mV
  OR MAX30003_CNFG_CAL_FCAL_1Hz
  OR MAX30003_CNFG_CAL_FIFTY_DUTY_50
  OR (Z.shiftl 0x000 MAX30003_CNFG_CAL_THIGH_SHIFT).

Definition CNFG_EMUX_value : Z :=
  MAX30003_CNFG_EMUX_DEFAULT_CONFIG
  OR MAX30003_CNFG_EMUX_POL_NON_INVERTED
  OR MAX30003_CNFG_EMUX_OPENP_INTERNALLY_ISOLATED
  OR MAX30003_CNFG_EMUX_OPENN_INTERNALLY_ISOLATED
  OR MAX30003_CNFG_EMUX_CALP_SEL_NONE
  OR MAX30003_CNFG_EMUX_CALN_SEL_NONE.

Definition CNFG_ECG_value : Z :=
  MAX30003_CNFG_ECG_DEFAULT_CONFIG
  OR MAX30003_CNFG_ECG_RATE_512
  OR MAX30003_CNFG_ECG_GAIN_80
  OR MAX30003_CNFG_ECG_DHPF_EN
  OR MAX30003_CNFG_ECG_DLPF_40.

Definition CNFG_RTOR1_value : Z :=
  MAX30003_CNFG_RTOR_DEFAULT_CONFIG
  OR MAX30003_CNFG_RTOR_eWNDW_12
  OR MAX30003_CNFG_RTOR_GAIN_DEFAULT
  OR MAX30003_CNFG_RTOR_EN_RTOR_DIS
  OR MAX30003_CNFG_RTOR_PAVG_DEFAULT
  OR (Z.shiftl 0x3 MAX30003_CNFG_RTOR_PTSF_SHIFT).

Definition CNFG_RTOR2_value : Z :=
  MAX30003_CNFG_RTOR2_DEFAULT_CONFIG
  OR (Z.shiftl 0x20 MAX30003_CNFG_RTOR2_HOFF_SHIFT)
  OR MAX30003_CNFG_RTOR2_RAVG_DEFAULT
  OR (Z.shiftl 0x4 MAX30003_CNFG_RTOR2_RHSF_SHIFT).

Definition MAX30003_ConfigureRegisters (hmax : MAX30003_HandleTypeDef)
    : M HAL_StatusTypeDef :=
  TRY MAX30003_WriteReg hmax MAX30003_REG_EN_INT EN_INT_value THEN
  TRY MAX30003_WriteReg hmax MAX30003_REG_EN_INT2 EN_INT_value THEN
  TRY MAX30003_WriteReg hmax MAX30003_REG_MNGR_INT MNGR_INT_value THEN
  TRY MAX30003_WriteReg hmax MAX30003_REG_MNGR_DYN MNGR_DYN_value THEN
  TRY MAX30003_WriteReg hmax MAX30003_REG_CNFG_GEN CNFG_GEN_value THEN
  TRY MAX30003_WriteReg hmax MAX30003_REG_CNFG_CAL CNFG_CAL_value THEN
  TRY MAX30003_WriteReg hmax MAX30003_REG_CNFG_EMUX CNFG_EMUX_value THEN
  TRY MAX30003_WriteReg hmax MAX30003_REG_CNFG_ECG CNFG_ECG_value THEN
  TRY MAX30003_WriteReg hmax MAX30003_REG_CNFG_RTOR1 CNFG_RTOR1_value THEN
  TRY MAX30003_WriteReg hmax MAX30003_REG_CNFG_RTOR2 CNFG_RTOR2_value THEN
  ret HAL_OK.

(** ** Vocabulary of the statements *)

(** The calls of one full-duplex exchange of the four bytes [tx], with the
    chip-select line driven low before and high after. *)
Definition exchange (hmax : MAX30003_HandleTypeDef) (tx : list Z) : list HAL_Call :=
  [GPIO_WritePin (cs_port hmax) (cs_pin hmax) GPIO_PIN_RESET;
   SPI_TransmitReceive (hspi hmax) tx 4 MAX30003_SPI_TIMEOUT;
   GPIO_WritePin (cs_port hmax) (cs_pin hmax) GPIO_PIN_SET].

(** The calls of one transmit-only transfer of the four bytes [tx]. *)
Definition transmission (hmax : MAX30003_HandleTypeDef) (tx : list Z) : list HAL_Call :=
  [GPIO_WritePin (cs_port hmax) (cs_pin hmax) GPIO_PIN_RESET;
   SPI_Transmit (hspi hmax) tx 4 MAX30003_SPI_TIMEOUT;
   GPIO_WritePin (cs_port hmax) (cs_pin hmax) GPIO_PIN_SET].

(** The world after [n] more transfers that left the calls [cs] in the trace. *)
Definition after (n : nat) (cs : list HAL_Call) (w : World) : World :=
  {| spi_script := spi_script w;
     spi_count := (n + spi_count w)%nat;
     calls := calls w ++ cs |}.

(** What the peripheral answers to the next transfer. *)
Definition next_reply (w : World) : SPI_Reply := spi_script w (spi_count w).

(** The receive buffer of [MAX30003_ReadReg] after its exchange. *)
Definition next_rx (w : World) : list Z :=
  receive (reply_rx (next_reply w)) 4 [0; 0; 0; 0].

(** The four bytes a device sends when it answers with the 24-bit value [v],
    most significant byte first, after the byte [b0] clocked out during the
    command byte. *)
Definition reg_frame (b0 v : Z) : list Z :=
  [b0; Z.land (Z.shiftr v 16) 0xFF; Z.land (Z.shiftr v 8) 0xFF; Z.land v 0xFF].

(** A world that has seen no call yet and follows the script [f]. *)
Definition boot (f : nat -> SPI_Reply) : World :=
  {| spi_script := f; spi_count := 0; calls := [] |}.

Definition ok_reply (bytes : list Z) : SPI_Reply :=
  {| reply_status := HAL_OK; reply_rx := bytes |}.

Definition failed_reply (st : HAL_StatusTypeDef) : SPI_Reply :=
  {| reply_status := st; reply_rx := [] |}.

(** A handle used in the examples. *)
Definition hmax0 : MAX30003_HandleTypeDef :=
  {| hspi := 0x40013000; cs_port := 0x40020000; cs_pin := 0x0010 |}.

(** The receive buffer [rx] after [j] exchanges, the first of which is
    answered by entry [n] of the script. *)
Fixpoint rx_history (script : nat -> SPI_Reply) (n : nat) (rx : list Z) (j : nat)
    : list Z :=
  match j with
  | O => rx
  | S j' => rx_history script (S n) (receive (reply_rx (script n)) 4 rx) j'
  end.

(** A value that fits eight bits. *)
Definition is_byte (b : Z) : Prop := 0 <= b < 256.

(** A script for five FIFO samples whose third exchange times out with
    nothing received. *)
Definition third_exchange_fails (n : nat) : SPI_Reply :=
  match n with
  | 0%nat => ok_reply [0; 0x00; 0x00; 0x40]
  | 1%nat => ok_reply [0; 0x00; 0x01; 0x40]
  | 2%nat => failed_reply HAL_TIMEOUT
  | _ => ok_reply [0; 0x00; 0x03; 0x40]
  end.

(** ** Device handle set-up ([max30003.c], lines 61-74) *)

(** [hmax] is the content of [*hmax] at the call; the second component of
    the result is its content at the return.  The null pointer is the
    address 0.  Only [hspi] is tested against it. *)
Definition MAX30003_Init (hmax : MAX30003_HandleTypeDef) (hspi cs_port cs_pin : Z)
    : M (HAL_StatusTypeDef * MAX30003_HandleTypeDef) :=
  if decide (hspi = 0) then ret (HAL_ERROR, hmax) else
  let hmax := {| hspi := hspi; cs_port := cs_port; cs_pin := cs_pin |} in
  let* _ := HAL_GPIO_WritePin cs_port cs_pin GPIO_PIN_SET in
  ret (HAL_OK, hmax).

(** ** More vocabulary *)

(** The world a computation ends in, whether it returns or not. *)
Definition world_of {A : Type} (o : Outcome A) : World :=
  match o with
  | Done _ w => w
  | Fault w => w
  end.

(** The four bytes [MAX30003_WriteReg] sends for a register and a value. *)
Definition write_frame (rv : Z * Z) : list Z :=
  [Z.land (Z.shiftl (fst rv) 1) 0xFE;
   Z.land (Z.shiftr (snd rv) 16) 0xFF;
   Z.land (Z.shiftr (snd rv) 8) 0xFF;
   Z.land (snd rv) 0xFF].

(** Register writes made one after the other until one does not return
    [HAL_OK]: the shape of both configuration functions. *)
Fixpoint write_chain (hmax : MAX30003_HandleTypeDef) (regs : list (Z * Z))
    : M HAL_StatusTypeDef :=
  match regs with
  | [] => ret HAL_OK
  | (reg, data) :: rest =>
      TRY MAX30003_WriteReg hmax reg data THEN write_chain hmax rest
  end.

(** The registers and values of [MAX30003_ConfigureRegistersDefault], in the
    order of the source. *)
Definition default_config : list (Z * Z) :=
  [(MAX30003_REG_EN_INT, MAX30003_EN_INT_DEFAULT_CONFIG);
   (MAX30003_REG_EN_INT2, MAX30003_EN_INT_DEFAULT_CONFIG);
   (MAX30003_REG_MNGR_INT, MAX30003_MNGR_INT_DEFAULT_CONFIG);
   (MAX30003_REG_MNGR_DYN, MAX30003_MNGR_DYN_DEFAULT_CONFIG);
   (MAX30003_REG_CNFG_GEN, MAX30003_CNFG_GEN_DEFAULT_CONFIG);
   (MAX30003_REG_CNFG_CAL, MAX30003_CNFG_CAL_DEFAULT_CONFIG);
   (MAX30003_REG_CNFG_EMUX, MAX30003_CNFG_EMUX_DEFAULT_CONFIG);
   (MAX30003_REG_CNFG_ECG, MAX30003_CNFG_ECG_DEFAULT_CONFIG);
   (MAX30003_REG_CNFG_RTOR1, MAX30003_CNFG_RTOR_DEFAULT_CONFIG);
   (MAX30003_REG_CNFG_RTOR2, MAX30003_CNFG_RTOR2_DEFAULT_CONFIG)].

(** The registers and values of [MAX30003_ConfigureRegisters], in the order
    of the source. *)
Definition custom_config : list (Z * Z) :=
  [(MAX30003_REG_EN_INT, EN_INT_value);
   (MAX30003_REG_EN_INT2, EN_INT_value);
   (MAX30003_REG_MNGR_INT, MNGR_INT_value);
   (MAX30003_REG_MNGR_DYN, MNGR_DYN_value);
   (MAX30003_REG_CNFG_GEN, CNFG_GEN_value);
   (MAX30003_REG_CNFG_CAL, CNFG_CAL_value);
   (MAX30003_REG_CNFG_EMUX, CNFG_EMUX_value);
   (MAX30003_REG_CNFG_ECG, CNFG_ECG_value);
   (MAX30003_REG_CNFG_RTOR1, CNFG_RTOR1_value);
   (MAX30003_REG_CNFG_RTOR2, CNFG_RTOR2_value)].

(** Modelled from the spec: the ConfigAssembler function
    [assemble(baseDefault, options)], whose result is [baseDefault]
    bitwise-ORed with every option value.  The sources have no such
    function: [MAX30003_ConfigureRegisters] spells each value inline as
    [DEFAULT | option | ...]. *)
Definition assemble (baseDefault : Z) (options : list Z) : Z :=
  fold_left Z.lor options baseDefault.

(** For each write of [MAX30003_ConfigureRegisters], in the order of the
    source: the register, the default its value starts from and the options
    ORed to it, in the order of the source. *)
Definition config_options : list (Z * Z * list Z) :=
  [(MAX30003_REG_EN_INT, MAX30003_EN_INT_DEFAULT_CONFIG,
    [MAX30003_EN_INT_EINT_EN;
     MAX30003_EN_INT_EOVF_EN;
     MAX30003_EN_INT_FSTINT_DIS;
     MAX30003_EN_INT_DCLOFFINT_DIS;
     MAX30003_EN_INT_LONINT_DIS;
     MAX30003_EN_INT_RRINT_DIS;
     MAX30003_EN_INT_SAMP_DIS;
     MAX30003_EN_INT_PLLINT_DIS;
     MAX30003_EN_INT_INTB_TYPE_OPEN_DRAIN_125K_PULLUP]);
   (MAX30003_REG_EN_INT2, MAX30003_EN_INT_DEFAULT_CONFIG,
    [MAX30003_EN_INT_EINT_EN;
     MAX30003_EN_INT_EOVF_EN;
     MAX30003_EN_INT_FSTINT_DIS;
     MAX30003_EN_INT_DCLOFFINT_DIS;
     MAX30003_EN_INT_LONINT_DIS;
     MAX30003_EN_INT_RRINT_DIS;
     MAX30003_EN_INT_SAMP_DIS;
     MAX30003_EN_INT_PLLINT_DIS;
     MAX30003_EN_INT_INTB_TYPE_OPEN_DRAIN_125K_PULLUP]);
   (MAX30003_REG_MNGR_INT, MAX30003_MNGR_INT_DEFAULT_CONFIG,
    [MAX30003_MNGR_INT_EFIT_32;
     MAX30003_MNGR_INT_CLR_FAST_DIS;
     MAX30003_MNGR_INT_CLR_RRINT_ON_STATUS_REGISTER_READ_BACK;
     MAX30003_MNGR_INT_CLR_SAMP_SELF_CLEAR;
     MAX30003_MNGR_INT_SAMP_IT_EVERY_SAMPLE]);
   (MAX30003_REG_MNGR_DYN, MAX30003_MNGR_DYN_DEFAULT_CONFIG,
    [MAX30003_MNGR_DYN_FAST_NORMAL_MODE;
     Z.shiftl 0x3F MAX30003_MNGR_DYN_FAST_TH_SHIFT]);
   (MAX30003_REG_CNFG_GEN, MAX30003_CNFG_GEN_DEFAULT_CONFIG,
    [MAX30003_CNFG_GEN_EN_ULP_LON_DIS;
     MAX30003_CNFG_GEN_FMSTR_512HZ_ECG_PROGGRESION;
     MAX30003_CNFG_GEN_EN_ECG_EN;
     MAX30003_CNFG_GEN_EN_DCLOFF_DIS;
     MAX30003_CNFG_GEN_DCLOFF_IPOL_ECGP_PULLUP;
     MAX30003_CNFG_GEN_DCLOFF_IMAG_0nA;
     MAX30003_CNFG_GEN_DCLOFF_VTH_VMID_PM_300;
     MAX30003_CNFG_GEN_EN_RBIAS_DIS;
     MAX30003_CNFG_GEN_RBIASV_100M;
     MAX30003_CNFG_GEN_RBIASP_DIS;
     MAX30003_CNFG_GEN_RBIASN_DIS]);
   (MAX30003_REG_CNFG_CAL, MAX30003_CNFG_CAL_DEFAULT_CONFIG,
    [MAX30003_CNFG_CAL_EN_VCAL_DIS;
     MAX30003_CNFG_CAL_VMODE_UNIPOLAR;
     MAX30003_CNFG_CAL_VMAG_0_25mV;
     MAX30003_CNFG_CAL_FCAL_1Hz;
     MAX30003_CNFG_CAL_FIFTY_DUTY_50;
     Z.shiftl 0x000 MAX30003_CNFG_CAL_THIGH_SHIFT]);
   (MAX30003_REG_CNFG_EMUX, MAX30003_CNFG_EMUX_DEFAULT_CONFIG,
    [MAX30003_CNFG_EMUX_POL_NON_INVERTED;
     MAX30003_CNFG_EMUX_OPENP_INTERNALLY_ISOLATED;
     MAX30003_CNFG_EMUX_OPENN_INTERNALLY_ISOLATED;
     MAX30003_CNFG_EMUX_CALP_SEL_NONE;
     MAX30003_CNFG_EMUX_CALN_SEL_NONE]);
   (MAX30003_REG_CNFG_ECG, MAX30003_CNFG_ECG_DEFAULT_CONFIG,
    [MAX30003_CNFG_ECG_RATE_512;
     MAX30003_CNFG_ECG_GAIN_80;
     MAX30003_CNFG_ECG_DHPF_EN;
     MAX30003_CNFG_ECG_DLPF_40]);
   (MAX30003_REG_CNFG_RTOR1, MAX30003_CNFG_RTOR_DEFAULT_CONFIG,
    [MAX30003_CNFG_RTOR_eWNDW_12;
     MAX30003_CNFG_RTOR_GAIN_DEFAULT;
     MAX30003_CNFG_RTOR_EN_RTOR_DIS;
     MAX30003_CNFG_RTOR_PAVG_DEFAULT;
     Z.shiftl 0x3 MAX30003_CNFG_RTOR_PTSF_SHIFT]);
   (MAX30003_REG_CNFG_RTOR2, MAX30003_CNFG_RTOR2_DEFAULT_CONFIG,
    [Z.shiftl 0x20 MAX30003_CNFG_RTOR2_HOFF_SHIFT;
     MAX30003_CNFG_RTOR2_RAVG_DEFAULT;
     Z.shiftl 0x4 MAX30003_CNFG_RTOR2_RHSF_SHIFT])].

(** The register and the assembled value of one entry. *)
Definition assembled (entry : Z * Z * list Z) : Z * Z :=
  let '(reg, baseDefault, options) := entry in (reg, assemble baseDefault options).

(** The same entry with no option. *)
Definition without_options (entry : Z * Z * list Z) : Z * Z * list Z :=
  let '(reg, baseDefault, _) := entry in (reg, baseDefault, []).

(** Two entries for the same register and default whose options differ in
    their order only. *)
Definition same_up_to_order (e e' : Z * Z * list Z) : Prop :=
  fst (fst e) = fst (fst e') /\ snd (fst e) = snd (fst e') /\
  Permutation (snd e) (snd e').

(** The entries of [config_options] with the options of each in reverse
    order. *)
Definition config_options_reversed : list (Z * Z * list Z) :=
  map (fun e => (fst e, rev (snd e))) config_options.

(** The eight interrupt masks the handler tests, in the order of the source. *)
Definition interrupt_masks : list Z :=
  [MAX30003_INT_EINT; MAX30003_INT_EOVF; MAX30003_INT_FSTINT;
   MAX30003_INT_DCLOFFINT; MAX30003_INT_LONINT; MAX30003_INT_RRINT;
   MAX30003_INT_SAMP; MAX30003_INT_PLLINT].

(** Case analysis on the comparisons [<?] and [<=?] of the goal. *)
Ltac split_comparisons :=
  repeat match goal with
         | |- context [?a <? ?b] => destruct (Z.ltb_spec a b)
         | |- context [?a <=? ?b] => destruct (Z.leb_spec a b)
         end;
  cbn [andb orb]; try reflexivity; try lia.

(** * Properties *)

(** ** Integer conversions and bytes *)

Lemma u8_range x : 0 <= u8 x < 256.
Proof. unfold u8. change (2 ^ 8) with 256. apply Z.mod_pos_bound. lia. Qed.

Lemma u8_small x : 0 <= x < 256 -> u8 x = x.
Proof. intros H. unfold u8. change (2 ^ 8) with 256. apply Z.mod_small, H. Qed.

Lemma u8_as_land x : u8 x = Z.land x 0xFF.
Proof. unfold u8. change 0xFF with (Z.ones 8). rewrite Z.land_ones; [reflexivity | lia]. Qed.

(** A value masked with a constant that fits a byte is not changed by the
    conversion to [uint8_t]. *)
Lemma u8_land x m : Z.land m 0xFF = m -> u8 (Z.land x m) = Z.land x m.
Proof. intros H. rewrite u8_as_land, <- Z.land_assoc, H. reflexivity. Qed.

Lemma u32_small x : 0 <= x < 2 ^ 32 -> u32 x = x.
Proof. intros H. unfold u32. apply Z.mod_small, H. Qed.

Lemma u32_shiftl_byte b n : 0 <= b < 256 -> 0 <= n <= 24 -> u32 (Z.shiftl b n) = Z.shiftl b n.
Proof.
  intros Hb Hn. apply u32_small. rewrite Z.shiftl_mul_pow2 by lia.
  assert (0 < 2 ^ n <= 2 ^ 24) as Hp.
  { split; [apply Z.pow_pos_nonneg; lia | apply Z.pow_le_mono_r; lia]. }
  change (2 ^ 24) with 16777216 in Hp. change (2 ^ 32) with 4294967296. nia.
Qed.

(** The read command byte of a 7-bit address needs no truncation. *)
Lemma read_command_fits addr :
  0 <= addr < 0x80 -> u8 (Z.lor (Z.shiftl addr 1) 0x01) = Z.lor (Z.shiftl addr 1) 0x01.
Proof.
  intros H. rewrite u8_as_land, Z.land_lor_distr_l. f_equal.
  rewrite <- u8_as_land. apply u8_small. rewrite Z.shiftl_mul_pow2 by lia. lia.
Qed.

(** ** Bytes of a 24-bit value *)

Lemma testbit_byte_at v k i :
  0 <= k -> 0 <= i ->
  Z.testbit (Z.shiftl (Z.land (Z.shiftr v k) (Z.ones 8)) k) i =
  (k <=? i) && (i <? k + 8) && Z.testbit v i.
Proof.
  intros Hk Hi. destruct (Z.lt_ge_cases i k) as [Hlt | Hge].
  - rewrite Z.shiftl_spec_low by assumption. split_comparisons.
  - rewrite Z.shiftl_spec_high, Z.land_spec, Z.shiftr_spec by lia.
    rewrite Z.testbit_ones_nonneg by lia.
    replace (i - k + k) with i by lia.
    destruct (Z.testbit v i); split_comparisons.
Qed.

(** The three bytes [(v >> 16) & 0xFF], [(v >> 8) & 0xFF], [v & 0xFF], put
    back most significant first, are the low 24 bits of [v]. *)
Lemma bytes_recompose v :
  Z.lor (Z.lor (Z.shiftl (Z.land (Z.shiftr v 16) 0xFF) 16)
               (Z.shiftl (Z.land (Z.shiftr v 8) 0xFF) 8))
        (Z.land v 0xFF) = Z.land v 0xFFFFFF.
Proof.
  change 0xFF with (Z.ones 8). change 0xFFFFFF with (Z.ones 24).
  apply Z.bits_inj'. intros i Hi.
  rewrite !Z.lor_spec, !testbit_byte_at, !Z.land_spec by lia.
  rewrite !Z.testbit_ones_nonneg by lia.
  destruct (Z.testbit v i); split_comparisons.
Qed.

Lemma land_24_small v : 0 <= v < 2 ^ 24 -> Z.land v 0xFFFFFF = v.
Proof.
  intros H. change 0xFFFFFF with (Z.ones 24). rewrite Z.land_ones by lia.
  apply Z.mod_small, H.
Qed.

(** ** FIFO word decoding *)

(** C1.  For every FIFO word [w], [MAX30003_ExtractETag w] is
    [(w >> 3) & 0x7] and [MAX30003_ExtractECGData w] is [(w >> 6) & 0x3FFFF].
    Both are functions of [w] alone: they take no world and return none. *)
Theorem Extract_fields (w : Z) :
  MAX30003_ExtractETag w = Z.land (Z.shiftr w 3) 0x7 /\
  MAX30003_ExtractECGData w = Z.land (Z.shiftr w 6) 0x3FFFF.
Proof.
  split; [| reflexivity].
  unfold MAX30003_ExtractETag, MAX30003_ETAG_SHIFT, MAX30003_ETAG_MASK.
  apply u8_land. reflexivity.
Qed.

Example ExtractETag_overflow_tag : MAX30003_ExtractETag 0x38 = 7.
Proof. reflexivity. Qed.

Example ExtractECGData_full_scale : MAX30003_ExtractECGData 0xFFFFC0 = 0x3FFFF.
Proof. reflexivity. Qed.

(** ** Worlds and receive buffers *)

Lemma after_after n m cs ds w :
  after n cs (after m ds w) = after (m + n) (ds ++ cs) w.
Proof.
  unfold after. cbn. f_equal; [lia | symmetry; apply app_assoc].
Qed.

Lemma log_call_after c n cs w : log_call c (after n cs w) = after n (cs ++ [c]) w.
Proof. unfold log_call, after. cbn. f_equal. symmetry. apply app_assoc. Qed.

Lemma log_transfer_after c n cs w :
  log_transfer c (after n cs w) = after (S n) (cs ++ [c]) w.
Proof. unfold log_transfer, after. cbn. f_equal. symmetry. apply app_assoc. Qed.

Lemma after_0_nil w : after 0 [] w = w.
Proof. destruct w. unfold after. cbn. f_equal. apply app_nil_r. Qed.

Lemma next_reply_after n cs w :
  next_reply (after n cs w) = spi_script w (n + spi_count w)%nat.
Proof. reflexivity. Qed.

Lemma next_rx_after n cs w :
  next_rx (after n cs w) =
  receive (reply_rx (spi_script w (n + spi_count w)%nat)) 4 [0; 0; 0; 0].
Proof. reflexivity. Qed.

Lemma receive_bytes arrived size rx :
  Forall is_byte rx -> Forall is_byte (receive arrived size rx).
Proof.
  intros H. unfold receive. apply Forall_app. split.
  - apply Forall_map, Forall_forall. intros x _. apply u8_range.
  - apply Forall_drop, H.
Qed.

Lemma nth_byte i l : Forall is_byte l -> is_byte (nth i l 0).
Proof.
  intros H. destruct (Nat.lt_ge_cases i (length l)) as [Hlt | Hge].
  - apply Forall_nth; assumption.
  - rewrite nth_overflow by assumption. unfold is_byte. lia.
Qed.

Lemma zeros_bytes : Forall is_byte [0; 0; 0; 0].
Proof. repeat constructor; unfold is_byte; lia. Qed.

Lemma next_rx_bytes w : Forall is_byte (next_rx w).
Proof. apply receive_bytes, zeros_bytes. Qed.

(** On a buffer of bytes the conversions of [rx_word] change nothing. *)
Lemma rx_word_bytes rx :
  Forall is_byte rx ->
  rx_word rx =
  Z.lor (Z.lor (Z.shiftl (nth 1 rx 0) 16) (Z.shiftl (nth 2 rx 0) 8)) (nth 3 rx 0).
Proof.
  intros H. unfold rx_word.
  rewrite !u32_shiftl_byte; try lia; try reflexivity; apply nth_byte, H.
Qed.

(** What [MAX30003_ReadReg] rebuilds from the frame of a 24-bit value. *)
Lemma rx_word_reg_frame b0 v :
  0 <= v < 2 ^ 24 -> rx_word (receive (reg_frame b0 v) 4 [0; 0; 0; 0]) = v.
Proof.
  intros H. rewrite rx_word_bytes by apply receive_bytes, zeros_bytes.
  unfold reg_frame, receive. cbn [take map length drop app nth].
  rewrite !u8_land by reflexivity.
  rewrite bytes_recompose. apply land_24_small, H.
Qed.

(** ** Register transport *)

Section Transport.

Variable hmax : MAX30003_HandleTypeDef.

Lemma SPI_TransmitReceive_run tx rx w :
  MAX30003_SPI_TransmitReceive hmax tx rx 4 w =
  Done (reply_status (next_reply w), receive (reply_rx (next_reply w)) 4 rx)
       (after 1 (exchange hmax (take 4 tx)) w).
Proof.
  unfold MAX30003_SPI_TransmitReceive, bind, HAL_GPIO_WritePin,
    HAL_SPI_TransmitReceive, ret, next_reply.
  change (Z.to_nat 4) with 4%nat. cbn [spi_script spi_count log_call].
  f_equal. rewrite <- (after_0_nil w) at 1.
  rewrite log_call_after, log_transfer_after, log_call_after. reflexivity.
Qed.

Lemma ReadReg_run reg data w :
  MAX30003_ReadReg hmax reg data w =
  Done (reply_status (next_reply w),
        if decide (reply_status (next_reply w) = HAL_OK)
        then rx_word (next_rx w) else data)
       (after 1 (exchange hmax [u8 (Z.lor (Z.shiftl reg 1) 0x01); 0; 0; 0]) w).
Proof.
  unfold MAX30003_ReadReg, bind. rewrite SPI_TransmitReceive_run.
  fold (next_rx w). destruct (decide _); reflexivity.
Qed.

Lemma WriteReg_run reg data w :
  MAX30003_WriteReg hmax reg data w =
  Done (reply_status (next_reply w))
       (after 1 (transmission hmax
                   [u8 (Z.land (Z.shiftl reg 1) 0xFE);
                    u8 (Z.land (Z.shiftr data 16) 0xFF);
                    u8 (Z.land (Z.shiftr data 8) 0xFF);
                    u8 (Z.land data 0xFF)]) w).
Proof.
  unfold MAX30003_WriteReg, bind, HAL_GPIO_WritePin, HAL_SPI_Transmit, ret,
    next_reply.
  change (Z.to_nat 4) with 4%nat. cbn [spi_script spi_count log_call].
  f_equal. rewrite <- (after_0_nil w) at 1.
  rewrite log_call_after, log_transfer_after, log_call_after. reflexivity.
Qed.

(** C5.  For every 7-bit register address [addr], [MAX30003_ReadReg] makes
    exactly one transfer: chip select low, a full-duplex exchange of the four
    bytes [(addr<<1)|1, 0, 0, 0], chip select high.  It returns the status of
    the exchange, and when that is [HAL_OK] the out-parameter holds
    [rx[1]<<16 | rx[2]<<8 | rx[3]] of the receive buffer. *)
Theorem ReadReg_frame addr data w :
  0 <= addr < 0x80 ->
  MAX30003_ReadReg hmax addr data w =
  Done (reply_status (next_reply w),
        if decide (reply_status (next_reply w) = HAL_OK)
        then Z.lor (Z.lor (Z.shiftl (nth 1 (next_rx w) 0) 16)
                          (Z.shiftl (nth 2 (next_rx w) 0) 8))
                   (nth 3 (next_rx w) 0)
        else data)
       (after 1
          [GPIO_WritePin (cs_port hmax) (cs_pin hmax) GPIO_PIN_RESET;
           SPI_TransmitReceive (hspi hmax) [Z.lor (Z.shiftl addr 1) 1; 0; 0; 0]
             4 MAX30003_SPI_TIMEOUT;
           GPIO_WritePin (cs_port hmax) (cs_pin hmax) GPIO_PIN_SET] w).
Proof.
  intros Haddr. rewrite ReadReg_run, read_command_fits by assumption.
  rewrite rx_word_bytes by apply next_rx_bytes. reflexivity.
Qed.

(** For any [uint8_t] argument the command byte is [(reg<<1)|1] cut to eight
    bits. *)
Lemma ReadReg_command_byte reg data w :
  exists r w',
    MAX30003_ReadReg hmax reg data w = Done r w' /\
    calls w' = calls w ++ exchange hmax [Z.land (Z.lor (Z.shiftl reg 1) 1) 0xFF; 0; 0; 0].
Proof.
  rewrite ReadReg_run, u8_as_land. eexists _, _. split; reflexivity.
Qed.

(** C6.  For every address [addr] and value [v], [MAX30003_WriteReg] makes
    exactly one transfer: chip select low, a transmit-only transfer of the
    four bytes [(addr<<1)&0xFE, (v>>16)&0xFF, (v>>8)&0xFF, v&0xFF], chip
    select high.  The three data bytes, most significant first, make up
    [v & 0xFFFFFF].  The result is the status of the transfer alone: no byte
    of the device is read. *)
Theorem WriteReg_frame addr v w :
  MAX30003_WriteReg hmax addr v w =
  Done (reply_status (next_reply w))
       (after 1
          [GPIO_WritePin (cs_port hmax) (cs_pin hmax) GPIO_PIN_RESET;
           SPI_Transmit (hspi hmax)
             [Z.land (Z.shiftl addr 1) 0xFE;
              Z.land (Z.shiftr v 16) 0xFF;
              Z.land (Z.shiftr v 8) 0xFF;
              Z.land v 0xFF]
             4 MAX30003_SPI_TIMEOUT;
           GPIO_WritePin (cs_port hmax) (cs_pin hmax) GPIO_PIN_SET] w) /\
  Z.lor (Z.lor (Z.shiftl (Z.land (Z.shiftr v 16) 0xFF) 16)
               (Z.shiftl (Z.land (Z.shiftr v 8) 0xFF) 8))
        (Z.land v 0xFF) = Z.land v 0xFFFFFF.
Proof.
  split; [| apply bytes_recompose].
  rewrite WriteReg_run, !u8_land by reflexivity. reflexivity.
Qed.

End Transport.

Lemma ReadReg_frame_witness :
  0 <= 0x0F < 0x80 /\
  MAX30003_ReadReg hmax0 0x0F 77 (boot (fun _ => ok_reply [0; 0x52; 0x01; 0x02])) =
  Done (HAL_OK, 0x520102)
       (after 1 (exchange hmax0 [0x1F; 0; 0; 0])
          (boot (fun _ => ok_reply [0; 0x52; 0x01; 0x02]))).
Proof.
  split; [lia |]. rewrite (ReadReg_frame hmax0 0x0F 77) by lia. reflexivity.
Defined.

Example WriteReg_truncates :
  MAX30003_WriteReg hmax0 MAX30003_REG_CNFG_ECG 0xAB805000 (boot (fun _ => ok_reply [])) =
  Done HAL_OK (after 1 (transmission hmax0 [0x2A; 0x80; 0x50; 0x00])
                 (boot (fun _ => ok_reply []))).
Proof. reflexivity. Qed.

(** ** Interrupt status *)

Section InterruptStatus.

Variable hmax : MAX30003_HandleTypeDef.

(** A failed read of STATUS ends the call: EN_INT is not read. *)
Lemma GetInterruptStatus_status_failed enabled_active w :
  reply_status (next_reply w) <> HAL_OK ->
  MAX30003_GetInterruptStatus hmax enabled_active w =
  Done (reply_status (next_reply w), enabled_active)
       (after 1 (exchange hmax [0x03; 0; 0; 0]) w).
Proof.
  intros H. unfold MAX30003_GetInterruptStatus, bind. rewrite ReadReg_run.
  destruct (decide (reply_status (next_reply w) = HAL_OK)); [contradiction |].
  destruct (decide (_ <> HAL_OK)); [reflexivity | contradiction].
Qed.

(** A failed read of EN_INT after a good read of STATUS. *)
Lemma GetInterruptStatus_en_int_failed enabled_active w :
  reply_status (next_reply w) = HAL_OK ->
  reply_status (spi_script w (S (spi_count w))) <> HAL_OK ->
  MAX30003_GetInterruptStatus hmax enabled_active w =
  Done (reply_status (spi_script w (S (spi_count w))), enabled_active)
       (after 2 (exchange hmax [0x03; 0; 0; 0] ++ exchange hmax [0x05; 0; 0; 0]) w).
Proof.
  intros H1 H2. unfold MAX30003_GetInterruptStatus, bind. rewrite ReadReg_run.
  destruct (decide (reply_status (next_reply w) <> HAL_OK)); [contradiction |].
  rewrite ReadReg_run, next_reply_after. cbn [Nat.add].
  destruct (decide (reply_status (spi_script w (S (spi_count w))) = HAL_OK));
    [contradiction |].
  destruct (decide (_ <> HAL_OK)); [| contradiction].
  rewrite after_after. reflexivity.
Qed.

Lemma GetInterruptStatus_run_ok enabled_active w :
  reply_status (next_reply w) = HAL_OK ->
  reply_status (spi_script w (S (spi_count w))) = HAL_OK ->
  MAX30003_GetInterruptStatus hmax enabled_active w =
  Done (HAL_OK,
        Z.land (Z.land (rx_word (next_rx w))
                       (rx_word (receive (reply_rx (spi_script w (S (spi_count w))))
                                   4 [0; 0; 0; 0])))
               0xF00F00)
       (after 2 (exchange hmax [0x03; 0; 0; 0] ++ exchange hmax [0x05; 0; 0; 0]) w).
Proof.
  intros H1 H2. unfold MAX30003_GetInterruptStatus, bind. rewrite ReadReg_run.
  destruct (decide (reply_status (next_reply w) <> HAL_OK)); [contradiction |].
  destruct (decide (reply_status (next_reply w) = HAL_OK)); [| contradiction].
  rewrite ReadReg_run, next_reply_after, next_rx_after. cbn [Nat.add].
  destruct (decide (reply_status (spi_script w (S (spi_count w))) = HAL_OK));
    [| contradiction].
  destruct (decide (_ <> HAL_OK)); [contradiction |].
  rewrite after_after. reflexivity.
Qed.

(** Both reads answered with success by the frames of two 24-bit values. *)
Lemma GetInterruptStatus_frames enabled_active status en_int b0 b1 w :
  0 <= status < 2 ^ 24 ->
  0 <= en_int < 2 ^ 24 ->
  spi_script w (spi_count w) = ok_reply (reg_frame b0 status) ->
  spi_script w (S (spi_count w)) = ok_reply (reg_frame b1 en_int) ->
  MAX30003_GetInterruptStatus hmax enabled_active w =
  Done (HAL_OK, Z.land (Z.land status en_int) 0xF00F00)
       (after 2 (exchange hmax [0x03; 0; 0; 0] ++ exchange hmax [0x05; 0; 0; 0]) w).
Proof.
  intros Hs He R0 R1.
  rewrite GetInterruptStatus_run_ok
    by (unfold next_reply; rewrite ?R0, ?R1; reflexivity).
  unfold next_rx, next_reply. rewrite R0, R1. cbn [reply_rx ok_reply].
  rewrite !rx_word_reg_frame by assumption. reflexivity.
Qed.

(** C2.  [MAX30003_GetInterruptStatus] first reads STATUS (command byte
    [(0x01<<1)|1]) and then EN_INT (command byte [(0x02<<1)|1]); when the
    device answers both reads with success, sending the 24-bit values
    [status] and [en_int], the out-parameter holds
    [status & en_int & 0xF00F00] and the call returns [HAL_OK]. *)
Theorem GetInterruptStatus_mask enabled_active status en_int b0 b1 w :
  0 <= status < 2 ^ 24 ->
  0 <= en_int < 2 ^ 24 ->
  spi_script w (spi_count w) = ok_reply (reg_frame b0 status) ->
  spi_script w (S (spi_count w)) = ok_reply (reg_frame b1 en_int) ->
  MAX30003_GetInterruptStatus hmax enabled_active w =
  Done (HAL_OK, Z.land (Z.land status en_int) 0xF00F00)
       (after 2
          (exchange hmax [Z.lor (Z.shiftl MAX30003_REG_STATUS 1) 1; 0; 0; 0] ++
           exchange hmax [Z.lor (Z.shiftl MAX30003_REG_EN_INT 1) 1; 0; 0; 0]) w).
Proof.
  intros Hs He R0 R1.
  rewrite (GetInterruptStatus_frames enabled_active status en_int b0 b1)
    by assumption.
  reflexivity.
Qed.

(** C10.  [MAX30003_ReadReg] and [MAX30003_GetInterruptStatus] always
    return, and whenever the status they return is not [HAL_OK] the
    out-parameter holds the value it had at the call. *)
Theorem out_parameter_kept_on_error reg data enabled_active w :
  (exists r w', MAX30003_ReadReg hmax reg data w = Done r w') /\
  (forall st v w',
      MAX30003_ReadReg hmax reg data w = Done (st, v) w' ->
      st <> HAL_OK -> v = data) /\
  (exists r w', MAX30003_GetInterruptStatus hmax enabled_active w = Done r w') /\
  (forall st v w',
      MAX30003_GetInterruptStatus hmax enabled_active w = Done (st, v) w' ->
      st <> HAL_OK -> v = enabled_active).
Proof.
  unfold MAX30003_GetInterruptStatus, bind. rewrite !ReadReg_run.
  repeat split.
  - eexists _, _. reflexivity.
  - intros st v w' [= <- <- _] Hst. destruct (decide _); congruence.
  - destruct (decide (reply_status (next_reply w) <> HAL_OK)).
    + eexists _, _. reflexivity.
    + rewrite ReadReg_run. destruct (decide (_ <> HAL_OK)); eexists _, _; reflexivity.
  - intros st v w'. destruct (decide (reply_status (next_reply w) <> HAL_OK)).
    + intros [= <- <- _]. reflexivity.
    + rewrite ReadReg_run. destruct (decide (_ <> HAL_OK)).
      * intros [= <- <- _]. reflexivity.
      * intros [= <- _ _] Hst. congruence.
Qed.

End InterruptStatus.

Lemma GetInterruptStatus_mask_witness :
  MAX30003_GetInterruptStatus hmax0 0
    (boot (fun _ => ok_reply (reg_frame 0 0xFFFFFF))) =
  Done (HAL_OK, 0xF00F00)
       (after 2 (exchange hmax0 [0x03; 0; 0; 0] ++ exchange hmax0 [0x05; 0; 0; 0])
          (boot (fun _ => ok_reply (reg_frame 0 0xFFFFFF)))).
Proof.
  apply (GetInterruptStatus_mask hmax0 0 0xFFFFFF 0xFFFFFF 0 0); [lia | lia | reflexivity | reflexivity].
Defined.

Example GetInterruptStatus_all_clear :
  MAX30003_GetInterruptStatus hmax0 0x55 (boot (fun _ => ok_reply (reg_frame 0 0))) =
  Done (HAL_OK, 0)
       (after 2 (exchange hmax0 [0x03; 0; 0; 0] ++ exchange hmax0 [0x05; 0; 0; 0])
          (boot (fun _ => ok_reply (reg_frame 0 0)))).
Proof. reflexivity. Qed.

Example GetInterruptStatus_scenario_A :
  MAX30003_GetInterruptStatus hmax0 0
    (boot (fun n => match n with
                    | O => ok_reply (reg_frame 0 0x800000)
                    | _ => ok_reply (reg_frame 0 0x800003)
                    end)) =
  Done (HAL_OK, 0x800000)
       (after 2 (exchange hmax0 [0x03; 0; 0; 0] ++ exchange hmax0 [0x05; 0; 0; 0])
          (boot (fun n => match n with
                          | O => ok_reply (reg_frame 0 0x800000)
                          | _ => ok_reply (reg_frame 0 0x800003)
                          end))).
Proof. reflexivity. Qed.

Lemma out_parameter_kept_on_error_witness :
  exists w1 w2,
    MAX30003_ReadReg hmax0 MAX30003_REG_STATUS 77
      (boot (fun _ => failed_reply HAL_TIMEOUT)) = Done (HAL_TIMEOUT, 77) w1 /\
    MAX30003_GetInterruptStatus hmax0 0x1234
      (boot (fun _ => failed_reply HAL_TIMEOUT)) = Done (HAL_TIMEOUT, 0x1234) w2.
Proof.
  destruct (out_parameter_kept_on_error hmax0 MAX30003_REG_STATUS 77 0x1234
              (boot (fun _ => failed_reply HAL_TIMEOUT)))
    as ([[st1 v1] [w1 E1]] & K1 & [[st2 v2] [w2 E2]] & K2).
  assert (st1 = HAL_TIMEOUT) as -> by (vm_compute in E1; congruence).
  assert (st2 = HAL_TIMEOUT) as -> by (vm_compute in E2; congruence).
  exists w1, w2. split.
  - rewrite E1, (K1 _ _ _ E1) by discriminate. reflexivity.
  - rewrite E2, (K2 _ _ _ E2) by discriminate. reflexivity.
Defined.

(** ** FIFO burst read *)

Section Burst.

Variable hmax : MAX30003_HandleTypeDef.

(** The loop is left as soon as the status is not [HAL_OK]. *)
Lemma ReadFIFO_loop_stop remaining i tx rx st p w :
  st <> HAL_OK -> ReadFIFO_loop hmax remaining i tx rx st p w = Done (st, p) w.
Proof.
  intros H. destruct remaining; cbn; [reflexivity |].
  destruct (decide (st = HAL_OK)); [contradiction | reflexivity].
Qed.

(** One turn of the loop on an array that has room for entry [i]: the word
    is stored whatever the status of the exchange. *)
Lemma ReadFIFO_loop_step remaining i tx rx cells w :
  (i < length cells)%nat ->
  ReadFIFO_loop hmax (S remaining) i tx rx HAL_OK (Array cells) w =
  ReadFIFO_loop hmax remaining (S i)
    (if decide (i = 0%nat) then <[0%nat := 0]> tx else tx)
    (receive (reply_rx (next_reply w)) 4 rx)
    (reply_status (next_reply w))
    (Array (<[i := rx_word (receive (reply_rx (next_reply w)) 4 rx)]> cells))
    (after 1 (exchange hmax (take 4 tx)) w).
Proof.
  intros Hi. cbn [ReadFIFO_loop]. destruct (decide (HAL_OK = HAL_OK)); [| congruence].
  unfold bind at 1. rewrite SPI_TransmitReceive_run.
  unfold bind at 1, store_u32.
  destruct (decide (i < length cells)%nat); [reflexivity | contradiction].
Qed.

(** One turn of the loop on a null pointer: the exchange is made, then the
    store goes through the null pointer. *)
Lemma ReadFIFO_loop_null remaining i tx rx w :
  ReadFIFO_loop hmax (S remaining) i tx rx HAL_OK NULL w =
  Fault (after 1 (exchange hmax (take 4 tx)) w).
Proof.
  cbn [ReadFIFO_loop]. destruct (decide (HAL_OK = HAL_OK)); [| congruence].
  unfold bind at 1. rewrite SPI_TransmitReceive_run. reflexivity.
Qed.

(** After the first turn every exchange carries the command byte [0x00]. *)
Lemma ReadFIFO_loop_continue remaining :
  forall i rx cells w,
    (0 < i)%nat ->
    (i + remaining <= length cells)%nat ->
    (forall j, (j < remaining)%nat ->
               reply_status (spi_script w (j + spi_count w)%nat) = HAL_OK) ->
    exists cells',
      ReadFIFO_loop hmax remaining i [0; 0; 0; 0] rx HAL_OK (Array cells) w =
      Done (HAL_OK, Array cells')
           (after remaining
              (flat_map (fun cmd => exchange hmax [cmd; 0; 0; 0])
                 (repeat 0x00 remaining)) w).
Proof.
  induction remaining as [| r IH]; intros i rx cells w Hi Hlen Hok.
  - exists cells. cbn. rewrite after_0_nil. reflexivity.
  - rewrite ReadFIFO_loop_step by lia.
    destruct (decide (i = 0%nat)); [lia |].
    assert (reply_status (next_reply w) = HAL_OK) as ->
      by (apply (Hok 0%nat); lia).
    edestruct (IH (S i) (receive (reply_rx (next_reply w)) 4 rx)
                 (<[i := rx_word (receive (reply_rx (next_reply w)) 4 rx)]> cells)
                 (after 1 (exchange hmax (take 4 [0; 0; 0; 0])) w))
      as [cells' E].
    + lia.
    + rewrite length_insert. lia.
    + intros j Hj. cbn [after spi_script spi_count].
      replace (j + (1 + spi_count w))%nat with (S j + spi_count w)%nat by lia.
      apply Hok. lia.
    + exists cells'. rewrite E, after_after. reflexivity.
Qed.

(** All [count] exchanges answered with success. *)
Lemma ReadFIFO_all_good cells count w :
  1 <= count <= 255 ->
  (Z.to_nat count <= length cells)%nat ->
  (forall j, (j < Z.to_nat count)%nat ->
             reply_status (spi_script w (spi_count w + j)%nat) = HAL_OK) ->
  exists cells',
    MAX30003_ReadFIFO hmax (Array cells) count w =
    Done (HAL_OK, Array cells')
         (after (Z.to_nat count)
            (flat_map (fun cmd => exchange hmax [cmd; 0; 0; 0])
               ((if count =? 1 then Z.lor (Z.shiftl 0x21 1) 1
                 else Z.lor (Z.shiftl 0x20 1) 1)
                :: repeat 0x00 (Z.to_nat count - 1))) w).
Proof.
  intros Hcount Hlen Hok. unfold MAX30003_ReadFIFO.
  destruct (Z.to_nat count) as [| r] eqn:Hr; [lia |].
  cbn [list_insert insert]. rewrite ReadFIFO_loop_step by lia.
  destruct (decide (0%nat = 0%nat)); [| congruence].
  assert (reply_status (next_reply w) = HAL_OK) as ->
    by (unfold next_reply; rewrite <- (Nat.add_0_r (spi_count w)); apply Hok; lia).
  cbn [list_insert insert take].
  edestruct (ReadFIFO_loop_continue r 1
               (receive (reply_rx (next_reply w)) 4 [0; 0; 0; 0])
               (<[0%nat := rx_word (receive (reply_rx (next_reply w)) 4 [0; 0; 0; 0])]> cells))
    as [cells' E]; [lia | rewrite length_insert; lia | | exists cells'; rewrite E].
  - intros j Hj. cbn [after spi_script spi_count].
    replace (j + (1 + spi_count w))%nat with (spi_count w + S j)%nat by lia.
    apply Hok. lia.
  - rewrite after_after. cbn [Nat.add Nat.sub flat_map]. rewrite Nat.sub_0_r.
    destruct (Z.eqb_spec count 1) as [-> | Hne].
    + reflexivity.
    + destruct (Z.ltb_spec 1 count); [reflexivity | lia].
Qed.

(** C7.  When the exchanges succeed, [MAX30003_ReadFIFO] with [count = 1]
    makes one exchange with command byte [(0x21<<1)|1]; with [count > 1] it
    makes a first exchange with command byte [(0x20<<1)|1] and then
    [count - 1] exchanges with command byte [0x00], in that order.  Every
    exchange has its own chip-select low and high. *)
Theorem ReadFIFO_commands cells count w :
  1 <= count <= 255 ->
  (Z.to_nat count <= length cells)%nat ->
  (forall j, (j < Z.to_nat count)%nat ->
             reply_status (spi_script w (spi_count w + j)%nat) = HAL_OK) ->
  exists cells',
    MAX30003_ReadFIFO hmax (Array cells) count w =
    Done (HAL_OK, Array cells')
         (after (Z.to_nat count)
            (flat_map (fun cmd => exchange hmax [cmd; 0; 0; 0])
               ((if count =? 1 then Z.lor (Z.shiftl 0x21 1) 1
                 else Z.lor (Z.shiftl 0x20 1) 1)
                :: repeat 0x00 (Z.to_nat count - 1))) w).
Proof. apply ReadFIFO_all_good. Qed.

(** Nothing is exchanged for [count = 0]. *)
Lemma ReadFIFO_zero p w : MAX30003_ReadFIFO hmax p 0 w = Done (HAL_OK, p) w.
Proof. reflexivity. Qed.

(** With an array of 32 entries in place of the null pointer the drain of
    [MAX30003_FIFO_LENGTH] samples makes 32 exchanges. *)
Lemma ReadFIFO_full_depth cells w :
  length cells = 32%nat ->
  (forall j, (j < 32)%nat ->
             reply_status (spi_script w (spi_count w + j)%nat) = HAL_OK) ->
  exists cells' w',
    MAX30003_ReadFIFO hmax (Array cells) MAX30003_FIFO_LENGTH w =
    Done (HAL_OK, Array cells') w' /\
    spi_count w' = (32 + spi_count w)%nat.
Proof.
  intros Hlen Hok.
  destruct (ReadFIFO_all_good cells MAX30003_FIFO_LENGTH w) as [cells' E].
  - unfold MAX30003_FIFO_LENGTH. lia.
  - rewrite Hlen. unfold MAX30003_FIFO_LENGTH. lia.
  - exact Hok.
  - eexists cells', _. split; [exact E | reflexivity].
Qed.

(** A failure that comes after [m] good exchanges: the loop is left with the
    status of the failed exchange after [m + 1] exchanges; the entries
    [i .. i + m], the one of the failed exchange included, hold the word
    built from the receive buffer; all other entries keep their content. *)
Lemma ReadFIFO_loop_first_failure m :
  forall remaining i tx rx cells w,
    (m < remaining)%nat ->
    (i + m < length cells)%nat ->
    (forall j, (j < m)%nat ->
               reply_status (spi_script w (j + spi_count w)%nat) = HAL_OK) ->
    reply_status (spi_script w (m + spi_count w)%nat) <> HAL_OK ->
    exists cells' w',
      ReadFIFO_loop hmax remaining i tx rx HAL_OK (Array cells) w =
      Done (reply_status (spi_script w (m + spi_count w)%nat), Array cells') w' /\
      spi_count w' = (S m + spi_count w)%nat /\
      (forall j, (j <= m)%nat ->
                 cells' !! (i + j)%nat =
                 Some (rx_word (rx_history (spi_script w) (spi_count w) rx (S j)))) /\
      (forall p, (p < i)%nat \/ (i + m < p)%nat -> cells' !! p = cells !! p).
Proof.
  induction m as [| m IH]; intros remaining i tx rx cells w Hrem Hlen Hok Hfail;
    (destruct remaining as [| r]; [lia |]); rewrite ReadFIFO_loop_step by lia.
  - change (spi_script w (0 + spi_count w)%nat) with (next_reply w) in *.
    rewrite ReadFIFO_loop_stop by assumption.
    eexists _, _. split; [reflexivity |]. split; [reflexivity |]. split.
    + intros j Hj. assert (j = 0%nat) as -> by lia. rewrite Nat.add_0_r.
      cbn [rx_history]. apply list_lookup_insert_eq. lia.
    + intros p Hp. apply list_lookup_insert_ne. lia.
  - assert (reply_status (next_reply w) = HAL_OK) as ->
      by (apply (Hok 0%nat); lia).
    edestruct (IH r (S i)
                 (if decide (i = 0%nat) then <[0%nat := 0]> tx else tx)
                 (receive (reply_rx (next_reply w)) 4 rx)
                 (<[i := rx_word (receive (reply_rx (next_reply w)) 4 rx)]> cells)
                 (after 1 (exchange hmax (take 4 tx)) w))
      as (cells' & w' & E & Hn & Hin & Hout).
    + lia.
    + rewrite length_insert. lia.
    + intros j Hj. cbn [after spi_script spi_count].
      replace (j + (1 + spi_count w))%nat with (S j + spi_count w)%nat by lia.
      apply Hok. lia.
    + cbn [after spi_script spi_count].
      replace (m + (1 + spi_count w))%nat with (S m + spi_count w)%nat by lia.
      assumption.
    + cbn [after spi_script spi_count] in E, Hn, Hin.
      replace (m + (1 + spi_count w))%nat with (S m + spi_count w)%nat in E by lia.
      exists cells', w'. split; [exact E |]. split; [lia |]. split.
      * intros [| j] Hj.
        -- rewrite Nat.add_0_r, Hout by lia.
           cbn [rx_history]. apply list_lookup_insert_eq. lia.
        -- replace (i + S j)%nat with (S i + j)%nat by lia.
           rewrite Hin by lia. reflexivity.
      * intros p Hp. rewrite Hout by lia. apply list_lookup_insert_ne. lia.
Qed.

(** The same for the whole call: the [k]-th exchange is the first to fail. *)
Lemma ReadFIFO_first_failure cells count k w :
  (1 <= k <= Z.to_nat count)%nat ->
  (k <= length cells)%nat ->
  (forall j, (j < k - 1)%nat ->
             reply_status (spi_script w (spi_count w + j)%nat) = HAL_OK) ->
  reply_status (spi_script w (spi_count w + (k - 1))%nat) <> HAL_OK ->
  exists cells' w',
    MAX30003_ReadFIFO hmax (Array cells) count w =
    Done (reply_status (spi_script w (spi_count w + (k - 1))%nat), Array cells') w' /\
    spi_count w' = (spi_count w + k)%nat /\
    (forall j, (j < k)%nat ->
               cells' !! j =
               Some (rx_word (rx_history (spi_script w) (spi_count w) [0; 0; 0; 0] (S j)))) /\
    (forall p, (k <= p)%nat -> cells' !! p = cells !! p).
Proof.
  intros Hk Hlen Hok Hfail. unfold MAX30003_ReadFIFO.
  rewrite (Nat.add_comm (spi_count w)) in Hfail.
  rewrite (Nat.add_comm (spi_count w)).
  edestruct (ReadFIFO_loop_first_failure (k - 1) (Z.to_nat count) 0
               (<[0%nat := u8 (Z.lor (Z.shiftl (if 1 <? count
                                                then MAX30003_FIFO_CMD_ECG_BURST
                                                else MAX30003_FIFO_CMD_ECG) 1) 1)]>
                  [0; 0; 0; 0])
               [0; 0; 0; 0] cells w)
    as (cells' & w' & E & Hn & Hin & Hout); try eassumption; try lia.
  - intros j Hj. rewrite Nat.add_comm. apply Hok, Hj.
  - exists cells', w'. split; [exact E |]. split; [lia |]. split.
    + intros j Hj. apply (Hin j). lia.
    + intros p Hp. apply Hout. lia.
Qed.

(** A null output buffer: the first exchange is made and its word is then
    stored through the null pointer. *)
Lemma ReadFIFO_null count w :
  1 <= count ->
  MAX30003_ReadFIFO hmax NULL count w =
  Fault (after 1
           (exchange hmax
              [Z.lor (Z.shiftl (if 1 <? count then 0x20 else 0x21) 1) 1; 0; 0; 0]) w).
Proof.
  intros H. unfold MAX30003_ReadFIFO.
  destruct (Z.to_nat count) as [| r] eqn:Hr; [lia |].
  rewrite ReadFIFO_loop_null. cbn [list_insert insert take].
  destruct (1 <? count); reflexivity.
Qed.

End Burst.

Lemma ReadFIFO_commands_witness :
  exists cells',
    MAX30003_ReadFIFO hmax0 (Array [0; 0; 0; 0]) 4
      (boot (fun _ => ok_reply [0; 0; 0; 0x40])) =
    Done (HAL_OK, Array cells')
         (after 4
            (exchange hmax0 [0x41; 0; 0; 0] ++ exchange hmax0 [0x00; 0; 0; 0] ++
             exchange hmax0 [0x00; 0; 0; 0] ++ exchange hmax0 [0x00; 0; 0; 0])
            (boot (fun _ => ok_reply [0; 0; 0; 0x40]))).
Proof.
  apply (ReadFIFO_commands hmax0 [0; 0; 0; 0] 4
           (boot (fun _ => ok_reply [0; 0; 0; 0x40]))).
  - lia.
  - cbn. lia.
  - intros j _. reflexivity.
Defined.

Example ReadFIFO_single :
  MAX30003_ReadFIFO hmax0 (Array [0]) 1 (boot (fun _ => ok_reply [0; 0; 0; 0x40])) =
  Done (HAL_OK, Array [0x40])
       (after 1 (exchange hmax0 [0x43; 0; 0; 0])
          (boot (fun _ => ok_reply [0; 0; 0; 0x40]))).
Proof. reflexivity. Qed.

(** C3.  Five samples are asked for and the third exchange times out with
    nothing received.  The call stops after three exchanges and returns
    [HAL_TIMEOUT]; entries 0 and 1 hold the two decoded words and entries 3
    and 4 keep their content, but entry 2, the one of the failed exchange,
    no longer holds 9: it was overwritten with the stale receive buffer. *)
Theorem ReadFIFO_third_of_five_fails :
  MAX30003_ReadFIFO hmax0 (Array [9; 9; 9; 9; 9]) 5 (boot third_exchange_fails) =
  Done (HAL_TIMEOUT, Array [0x000040; 0x000140; 0x000140; 9; 9])
       (after 3
          (exchange hmax0 [0x41; 0; 0; 0] ++ exchange hmax0 [0x00; 0; 0; 0] ++
           exchange hmax0 [0x00; 0; 0; 0])
          (boot third_exchange_fails)).
Proof. reflexivity. Qed.

(** ** Interrupt handler *)

Lemma when_ret b w : when_ b (ret tt) w = Done tt w.
Proof. destruct b; reflexivity. Qed.

Section Handler.

Variable hmax : MAX30003_HandleTypeDef.

(** The handler after [MAX30003_GetInterruptStatus] left [v] in the local
    [enabled_active], when the bit of the FIFO threshold is clear: the
    FIFO_RST write is made exactly when the overflow bit is set. *)
Lemma IRQHandler_no_threshold enabled_active st v w w1 :
  MAX30003_GetInterruptStatus hmax enabled_active w = Done (st, v) w1 ->
  flag_set v MAX30003_INT_EINT = false ->
  MAX30003_IRQHandler hmax enabled_active w =
  Done tt (if flag_set v MAX30003_INT_EOVF
           then after 1 (transmission hmax [0x14; 0; 0; 0]) w1
           else w1).
Proof.
  intros E Hth. unfold MAX30003_IRQHandler. unfold bind at 1. rewrite E, Hth.
  unfold bind at 1. cbn [when_ ret].
  unfold bind at 1. destruct (flag_set v MAX30003_INT_EOVF).
  - unfold when_ at 1. unfold bind at 1. rewrite WriteReg_run.
    unfold bind, ret. rewrite !when_ret. reflexivity.
  - unfold when_ at 1. unfold bind, ret. rewrite !when_ret. reflexivity.
Qed.

(** The handler when the bit of the FIFO threshold is set: the drain is
    called with a null buffer. *)
Lemma IRQHandler_threshold enabled_active st v w w1 :
  MAX30003_GetInterruptStatus hmax enabled_active w = Done (st, v) w1 ->
  flag_set v MAX30003_INT_EINT = true ->
  MAX30003_IRQHandler hmax enabled_active w =
  Fault (after 1 (exchange hmax [0x41; 0; 0; 0]) w1).
Proof.
  intros E Hth. unfold MAX30003_IRQHandler. unfold bind at 1. rewrite E, Hth.
  unfold bind at 1. unfold when_ at 1. unfold bind at 1.
  rewrite ReadFIFO_null by (unfold MAX30003_FIFO_LENGTH; lia). reflexivity.
Qed.

(** A failed read of STATUS does not stop the handler: it goes on with the
    value the local variable happened to hold. *)
Lemma IRQHandler_after_failed_read stale w :
  reply_status (next_reply w) <> HAL_OK ->
  flag_set stale MAX30003_INT_EINT = false ->
  flag_set stale MAX30003_INT_EOVF = true ->
  MAX30003_IRQHandler hmax stale w =
  Done tt (after 2 (exchange hmax [0x03; 0; 0; 0] ++ transmission hmax [0x14; 0; 0; 0]) w).
Proof.
  intros Hfail Hth Hov.
  rewrite (IRQHandler_no_threshold stale _ stale w _
             (GetInterruptStatus_status_failed hmax stale w Hfail) Hth).
  rewrite Hov, after_after. reflexivity.
Qed.

(** With both reads good and only the overflow bit enabled and active, the
    handler writes the value 0 to FIFO_RST (address [0x0A]). *)
Lemma IRQHandler_overflow enabled_active status en_int b0 b1 w :
  0 <= status < 2 ^ 24 ->
  0 <= en_int < 2 ^ 24 ->
  spi_script w (spi_count w) = ok_reply (reg_frame b0 status) ->
  spi_script w (S (spi_count w)) = ok_reply (reg_frame b1 en_int) ->
  flag_set (Z.land (Z.land status en_int) 0xF00F00) MAX30003_INT_EINT = false ->
  flag_set (Z.land (Z.land status en_int) 0xF00F00) MAX30003_INT_EOVF = true ->
  MAX30003_IRQHandler hmax enabled_active w =
  Done tt (after 3
             (exchange hmax [0x03; 0; 0; 0] ++ exchange hmax [0x05; 0; 0; 0] ++
              transmission hmax
                [Z.land (Z.shiftl MAX30003_REG_FIFO_RST 1) 0xFE; 0; 0; 0]) w).
Proof.
  intros Hs He R0 R1 Hth Hov.
  rewrite (IRQHandler_no_threshold enabled_active _ _ w _
             (GetInterruptStatus_frames hmax enabled_active status en_int b0 b1 w
                Hs He R0 R1) Hth).
  rewrite Hov, after_after, <- app_assoc. reflexivity.
Qed.

(** With both reads good and the threshold bit enabled and active, the
    handler makes one FIFO exchange and then stores through the null buffer
    it handed to [MAX30003_ReadFIFO]. *)
Lemma IRQHandler_threshold_null enabled_active status en_int b0 b1 w :
  0 <= status < 2 ^ 24 ->
  0 <= en_int < 2 ^ 24 ->
  spi_script w (spi_count w) = ok_reply (reg_frame b0 status) ->
  spi_script w (S (spi_count w)) = ok_reply (reg_frame b1 en_int) ->
  flag_set (Z.land (Z.land status en_int) 0xF00F00) MAX30003_INT_EINT = true ->
  MAX30003_IRQHandler hmax enabled_active w =
  Fault (after 3
           (exchange hmax [0x03; 0; 0; 0] ++ exchange hmax [0x05; 0; 0; 0] ++
            exchange hmax [0x41; 0; 0; 0]) w).
Proof.
  intros Hs He R0 R1 Hth.
  rewrite (IRQHandler_threshold enabled_active _ _ w _
             (GetInterruptStatus_frames hmax enabled_active status en_int b0 b1 w
                Hs He R0 R1) Hth).
  rewrite after_after, <- app_assoc. reflexivity.
Qed.

End Handler.

(** C4.  The read of STATUS fails.  With [0x400000] left in the local
    variable the handler still writes FIFO_RST; with [0x800000] it still
    starts the FIFO drain.  The pass is not given up. *)
Theorem IRQHandler_acts_after_failed_status_read :
  MAX30003_IRQHandler hmax0 0x400000 (boot (fun _ => failed_reply HAL_ERROR)) =
  Done tt (after 2 (exchange hmax0 [0x03; 0; 0; 0] ++ transmission hmax0 [0x14; 0; 0; 0])
             (boot (fun _ => failed_reply HAL_ERROR))) /\
  MAX30003_IRQHandler hmax0 0x800000 (boot (fun _ => failed_reply HAL_ERROR)) =
  Fault (after 2 (exchange hmax0 [0x03; 0; 0; 0] ++ exchange hmax0 [0x41; 0; 0; 0])
           (boot (fun _ => failed_reply HAL_ERROR))).
Proof. split; reflexivity. Qed.

(** The same when STATUS is read and the read of EN_INT fails. *)
Example IRQHandler_acts_after_failed_en_int_read :
  MAX30003_IRQHandler hmax0 0x400000
    (boot (fun n => match n with
                    | O => ok_reply (reg_frame 0 0)
                    | _ => failed_reply HAL_TIMEOUT
                    end)) =
  Done tt (after 3
             (exchange hmax0 [0x03; 0; 0; 0] ++ exchange hmax0 [0x05; 0; 0; 0] ++
              transmission hmax0 [0x14; 0; 0; 0])
             (boot (fun n => match n with
                             | O => ok_reply (reg_frame 0 0)
                             | _ => failed_reply HAL_TIMEOUT
                             end))).
Proof. reflexivity. Qed.

(** C8.  STATUS and EN_INT both read [0xC00000]: threshold and overflow are
    enabled and active.  The handler reads the two registers, makes one FIFO
    exchange (burst command) and then stores through the null pointer it
    passed as the output buffer: 32 samples are not drained, and FIFO_RST is
    not written. *)
Theorem IRQHandler_threshold_drain_faults :
  MAX30003_IRQHandler hmax0 0 (boot (fun _ => ok_reply (reg_frame 0 0xC00000))) =
  Fault (after 3
           (exchange hmax0 [0x03; 0; 0; 0] ++ exchange hmax0 [0x05; 0; 0; 0] ++
            exchange hmax0 [0x41; 0; 0; 0])
           (boot (fun _ => ok_reply (reg_frame 0 0xC00000)))).
Proof. reflexivity. Qed.

Example IRQHandler_overflow_only :
  MAX30003_IRQHandler hmax0 0 (boot (fun _ => ok_reply (reg_frame 0 0x400000))) =
  Done tt (after 3
             (exchange hmax0 [0x03; 0; 0; 0] ++ exchange hmax0 [0x05; 0; 0; 0] ++
              transmission hmax0 [0x14; 0; 0; 0])
             (boot (fun _ => ok_reply (reg_frame 0 0x400000)))).
Proof. reflexivity. Qed.

(** ** Register configuration *)

Lemma assemble_cons baseDefault o options :
  assemble baseDefault (o :: options) = assemble (Z.lor baseDefault o) options.
Proof. reflexivity. Qed.

Lemma assemble_Permutation options options' :
  Permutation options options' ->
  forall baseDefault, assemble baseDefault options = assemble baseDefault options'.
Proof.
  induction 1 as [| o l l' _ IH | a b l | l l' l'' _ IH1 _ IH2]; intros baseDefault.
  - reflexivity.
  - rewrite !assemble_cons. apply IH.
  - rewrite !assemble_cons. f_equal.
    rewrite <- !Z.lor_assoc. f_equal. apply Z.lor_comm.
  - rewrite IH1. apply IH2.
Qed.

(** Bit [i] of the assembled value is set when it is set in the base or in
    one of the options. *)
Lemma assemble_testbit options :
  forall baseDefault i,
    Z.testbit (assemble baseDefault options) i =
    Z.testbit baseDefault i || existsb (fun o => Z.testbit o i) options.
Proof.
  induction options as [| o options IH]; intros baseDefault i.
  - cbn. rewrite orb_false_r. reflexivity.
  - rewrite assemble_cons, IH, Z.lor_spec. cbn [existsb].
    rewrite orb_assoc. reflexivity.
Qed.

(** The values [MAX30003_ConfigureRegisters] writes, as numbers. *)
Example configuration_values :
  [EN_INT_value; MNGR_INT_value; MNGR_DYN_value; CNFG_GEN_value; CNFG_CAL_value;
   CNFG_EMUX_value; CNFG_ECG_value; CNFG_RTOR1_value; CNFG_RTOR2_value] =
  [0xC00003; 0xF80004; 0x3F0000; 0x080004; 0x004800;
   0x300000; 0x825000; 0x3F2300; 0x202400].
Proof. reflexivity. Qed.

Example ConfigureRegisters_all_good :
  MAX30003_ConfigureRegisters hmax0 (boot (fun _ => ok_reply [])) =
  Done HAL_OK
    (after 10
       (transmission hmax0 [0x04; 0xC0; 0x00; 0x03] ++
        transmission hmax0 [0x06; 0xC0; 0x00; 0x03] ++
        transmission hmax0 [0x08; 0xF8; 0x00; 0x04] ++
        transmission hmax0 [0x0A; 0x3F; 0x00; 0x00] ++
        transmission hmax0 [0x20; 0x08; 0x00; 0x04] ++
        transmission hmax0 [0x24; 0x00; 0x48; 0x00] ++
        transmission hmax0 [0x28; 0x30; 0x00; 0x00] ++
        transmission hmax0 [0x2A; 0x82; 0x50; 0x00] ++
        transmission hmax0 [0x3A; 0x3F; 0x23; 0x00] ++
        transmission hmax0 [0x3C; 0x20; 0x24; 0x00])
       (boot (fun _ => ok_reply []))).
Proof. reflexivity. Qed.

(** A write that fails ends the configuration at once. *)
Example ConfigureRegisters_second_write_fails :
  MAX30003_ConfigureRegisters hmax0
    (boot (fun n => match n with
                    | 1%nat => failed_reply HAL_BUSY
                    | _ => ok_reply []
                    end)) =
  Done HAL_BUSY
    (after 2
       (transmission hmax0 [0x04; 0xC0; 0x00; 0x03] ++
        transmission hmax0 [0x06; 0xC0; 0x00; 0x03])
       (boot (fun n => match n with
                       | 1%nat => failed_reply HAL_BUSY
                       | _ => ok_reply []
                       end))).
Proof. reflexivity. Qed.

(** * Further properties of the driver *)

(** ** Bit fields *)

Lemma testbit_high a n i : 0 <= a < 2 ^ n -> 0 <= n <= i -> Z.testbit a i = false.
Proof.
  intros Ha Hn. rewrite <- (Z.mod_small a (2 ^ n)) by assumption.
  apply Z.mod_pow2_bits_high. assumption.
Qed.

Lemma testbit_field_at v k n i :
  0 <= k -> 0 <= n -> 0 <= i ->
  Z.testbit (Z.shiftl (Z.land (Z.shiftr v k) (Z.ones n)) k) i =
  (k <=? i) && (i <? k + n) && Z.testbit v i.
Proof.
  intros Hk Hn Hi. destruct (Z.lt_ge_cases i k) as [Hlt | Hge].
  - rewrite Z.shiftl_spec_low by assumption. split_comparisons.
  - rewrite Z.shiftl_spec_high, Z.land_spec, Z.shiftr_spec by lia.
    rewrite Z.testbit_ones_nonneg by lia.
    replace (i - k + k) with i by lia.
    destruct (Z.testbit v i); split_comparisons.
Qed.

Lemma testbit_shiftl_small a k n i :
  0 <= a < 2 ^ n -> 0 <= k -> 0 <= n -> 0 <= i ->
  Z.testbit (Z.shiftl a k) i = (k <=? i) && (i <? k + n) && Z.testbit a (i - k).
Proof.
  intros Ha Hk Hn Hi. destruct (Z.lt_ge_cases i k) as [Hlt | Hge].
  - rewrite Z.shiftl_spec_low by assumption. split_comparisons.
  - rewrite Z.shiftl_spec_high by lia.
    destruct (Z.lt_ge_cases i (k + n)) as [Hin | Hout].
    + split_comparisons.
    + rewrite (testbit_high a n (i - k)) by lia. split_comparisons.
Qed.

Lemma land_ones_range x n : 0 <= n -> 0 <= Z.land x (Z.ones n) < 2 ^ n.
Proof.
  intros Hn. rewrite Z.land_ones by lia. apply Z.mod_pos_bound.
  apply Z.pow_pos_nonneg; lia.
Qed.

Lemma lor_lt_pow2 a b n :
  0 <= n -> 0 <= a < 2 ^ n -> 0 <= b < 2 ^ n -> 0 <= Z.lor a b < 2 ^ n.
Proof.
  intros Hn Ha Hb. split; [apply Z.lor_nonneg; lia |].
  assert (Z.lor a b = Z.lor a b mod 2 ^ n) as ->.
  { rewrite <- Z.land_ones, Z.land_lor_distr_l, !Z.land_ones by lia.
    rewrite !Z.mod_small by assumption. reflexivity. }
  apply Z.mod_pos_bound. apply Z.pow_pos_nonneg; lia.
Qed.

(** ** FIFO words: encoding and decoding *)

(** X1.  A FIFO word put together from a sample of 18 bits, a tag of 3 bits
    and any value of the 3 reserved bits decodes to that tag and that
    sample: the reserved bits play no part. *)
Theorem Extract_of_encoded etag sample reserved :
  0 <= etag < 8 ->
  0 <= sample < 2 ^ 18 ->
  0 <= reserved < 8 ->
  MAX30003_ExtractETag
    (Z.lor (Z.lor (Z.shiftl sample 6) (Z.shiftl etag 3)) reserved) = etag /\
  MAX30003_ExtractECGData
    (Z.lor (Z.lor (Z.shiftl sample 6) (Z.shiftl etag 3)) reserved) = sample.
Proof.
  intros He Hs Hr.
  unfold MAX30003_ExtractETag, MAX30003_ExtractECGData, MAX30003_ETAG_SHIFT,
    MAX30003_ETAG_MASK, MAX30003_ECG_VOLTAGE_DATA_SHIFT,
    MAX30003_ECG_VOLTAGE_DATA_MASK.
  rewrite u8_land by reflexivity.
  change 0x07 with (Z.ones 3). change 0x3FFFF with (Z.ones 18).
  split; apply Z.bits_inj'; intros i Hi;
    rewrite Z.land_spec, Z.shiftr_spec, !Z.lor_spec by lia;
    rewrite (testbit_shiftl_small sample 6 18), (testbit_shiftl_small etag 3 3)
      by lia;
    rewrite Z.testbit_ones_nonneg by lia.
  - destruct (Z.lt_ge_cases i 3).
    + rewrite (testbit_high reserved 3 (i + 3)) by lia.
      replace (i + 3 - 3) with i by lia.
      destruct (Z.testbit etag i); split_comparisons.
    + rewrite (testbit_high etag 3 i) by lia. split_comparisons.
      all: rewrite ?andb_false_r; reflexivity.
  - destruct (Z.lt_ge_cases i 18).
    + rewrite (testbit_high reserved 3 (i + 6)) by lia.
      replace (i + 6 - 6) with i by lia.
      destruct (Z.testbit sample i); split_comparisons.
    + rewrite (testbit_high sample 18 i) by lia. split_comparisons.
      all: rewrite ?andb_false_r; reflexivity.
Qed.

Lemma Extract_of_encoded_witness :
  MAX30003_ExtractETag (Z.lor (Z.lor (Z.shiftl 0x2ABCD 6) (Z.shiftl 2 3)) 5) = 2 /\
  MAX30003_ExtractECGData (Z.lor (Z.lor (Z.shiftl 0x2ABCD 6) (Z.shiftl 2 3)) 5) = 0x2ABCD.
Proof. apply (Extract_of_encoded 2 0x2ABCD 5); lia. Defined.

(** X2.  A 24-bit FIFO word is made of nothing but its three fields: the
    tag is at most 7, the sample at most [0x3FFFF], and sample, tag and the
    three reserved bits put back in place give the word again. *)
Theorem Extract_fields_rebuild w :
  0 <= w < 2 ^ 24 ->
  0 <= MAX30003_ExtractETag w <= 7 /\
  0 <= MAX30003_ExtractECGData w <= 0x3FFFF /\
  Z.lor (Z.lor (Z.shiftl (MAX30003_ExtractECGData w) 6)
               (Z.shiftl (MAX30003_ExtractETag w) 3))
        (Z.land w 0x7) = w.
Proof.
  intros Hw.
  unfold MAX30003_ExtractETag, MAX30003_ExtractECGData, MAX30003_ETAG_SHIFT,
    MAX30003_ETAG_MASK, MAX30003_ECG_VOLTAGE_DATA_SHIFT,
    MAX30003_ECG_VOLTAGE_DATA_MASK.
  rewrite u8_land by reflexivity.
  split; [| split].
  - pose proof (land_ones_range (Z.shiftr w 3) 3 ltac:(lia)) as H.
    change (2 ^ 3) with 8 in H. change (Z.ones 3) with 7 in H. lia.
  - pose proof (land_ones_range (Z.shiftr w 6) 18 ltac:(lia)) as H.
    change (2 ^ 18) with 262144 in H. change (Z.ones 18) with 0x3FFFF in H. lia.
  - change 0x07 with (Z.ones 3). change 0x3FFFF with (Z.ones 18).
    apply Z.bits_inj'. intros i Hi.
    rewrite !Z.lor_spec, !testbit_field_at, Z.land_spec by lia.
    rewrite Z.testbit_ones_nonneg by lia.
    destruct (Z.lt_ge_cases i 24).
    + destruct (Z.testbit w i); split_comparisons.
    + rewrite (testbit_high w 24 i) by lia. split_comparisons.
Qed.

Lemma Extract_fields_rebuild_witness :
  0 <= MAX30003_ExtractETag 0xABCDEF <= 7 /\
  0 <= MAX30003_ExtractECGData 0xABCDEF <= 0x3FFFF /\
  Z.lor (Z.lor (Z.shiftl (MAX30003_ExtractECGData 0xABCDEF) 6)
               (Z.shiftl (MAX30003_ExtractETag 0xABCDEF) 3))
        (Z.land 0xABCDEF 0x7) = 0xABCDEF.
Proof. apply (Extract_fields_rebuild 0xABCDEF). lia. Defined.

(** ** Register transport: values, command bytes, addresses *)

Lemma u8_idem_land x : u8 (u8 (Z.land x 0xFF)) = Z.land x 0xFF.
Proof. rewrite !u8_land by reflexivity. reflexivity. Qed.

Lemma shiftl_byte_range b n :
  is_byte b -> 0 <= n <= 16 -> 0 <= Z.shiftl b n < 2 ^ 24.
Proof.
  unfold is_byte. intros Hb Hn. rewrite Z.shiftl_mul_pow2 by lia.
  assert (0 < 2 ^ n <= 2 ^ 16) as Hp.
  { split; [apply Z.pow_pos_nonneg; lia | apply Z.pow_le_mono_r; lia]. }
  change (2 ^ 16) with 65536 in Hp. change (2 ^ 24) with 16777216. nia.
Qed.

Lemma rx_word_range rx : Forall is_byte rx -> 0 <= rx_word rx < 2 ^ 24.
Proof.
  intros H. rewrite rx_word_bytes by assumption.
  repeat apply lor_lt_pow2; try lia;
    try (apply shiftl_byte_range; [apply nth_byte, H | lia]).
  pose proof (nth_byte 3 rx H) as H3. unfold is_byte in H3.
  change (2 ^ 24) with 16777216. lia.
Qed.

(** The word rebuilt from a frame of four bytes does not depend on what the
    receive buffer held before. *)
Lemma rx_word_receive_frame b0 v rx :
  0 <= v < 2 ^ 24 -> rx_word (receive (reg_frame b0 v) 4 rx) = v.
Proof.
  intros H. unfold rx_word, reg_frame, receive.
  cbn [take map length drop app nth].
  rewrite !u8_land by reflexivity.
  rewrite !u32_shiftl_byte; try lia;
    try (change 0xFF with (Z.ones 8);
         match goal with
         | |- 0 <= Z.land ?x (Z.ones 8) < 256 =>
             pose proof (land_ones_range x 8 ltac:(lia)) as Hr;
             change (2 ^ 8) with 256 in Hr; exact Hr
         end).
  rewrite bytes_recompose. apply land_24_small, H.
Qed.

(** X3.  Whatever bytes the bus delivers, a value that [MAX30003_ReadReg]
    hands out with [HAL_OK] lies in [0, 2^24). *)
Theorem ReadReg_value_fits_24_bits hmax reg data w st v w' :
  MAX30003_ReadReg hmax reg data w = Done (st, v) w' ->
  st = HAL_OK ->
  0 <= v < 2 ^ 24.
Proof.
  rewrite ReadReg_run. intros [= <- <- _] Hst.
  destruct (decide _); [| contradiction].
  apply rx_word_range, next_rx_bytes.
Qed.

Lemma ReadReg_value_fits_24_bits_witness :
  0 <= rx_word (next_rx (boot (fun _ => ok_reply [0x1FF; 0x3AB; -5; 70000]))) < 2 ^ 24.
Proof.
  apply (ReadReg_value_fits_24_bits hmax0 0x0F 0
           (boot (fun _ => ok_reply [0x1FF; 0x3AB; -5; 70000])) HAL_OK _
           (after 1 (exchange hmax0 [0x1F; 0; 0; 0])
              (boot (fun _ => ok_reply [0x1FF; 0x3AB; -5; 70000]))));
    reflexivity.
Defined.

(** X4.  What is written can be read back: the three data bytes that
    [MAX30003_WriteReg] sends for [v], given as the answer to a read, make
    [MAX30003_ReadReg] return [v & 0xFFFFFF]. *)
Theorem WriteReg_ReadReg_round_trip hmax addr v w0 reg data b0 w :
  next_reply w = ok_reply (b0 :: tl (write_frame (addr, v))) ->
  MAX30003_WriteReg hmax addr v w0 =
  Done (reply_status (next_reply w0))
       (after 1 (transmission hmax (write_frame (addr, v))) w0) /\
  MAX30003_ReadReg hmax reg data w =
  Done (HAL_OK, Z.land v 0xFFFFFF)
       (after 1 (exchange hmax [u8 (Z.lor (Z.shiftl reg 1) 1); 0; 0; 0]) w).
Proof.
  intros Hr. split.
  - rewrite WriteReg_run. unfold write_frame. cbn [fst snd].
    rewrite !u8_land by reflexivity. reflexivity.
  - rewrite ReadReg_run. unfold next_rx. rewrite Hr.
    cbn [reply_status reply_rx ok_reply].
    destruct (decide (HAL_OK = HAL_OK)); [| congruence].
    do 2 f_equal.
    rewrite rx_word_bytes by apply receive_bytes, zeros_bytes.
    unfold write_frame, receive. cbn [fst snd tl take map length drop app nth].
    rewrite !u8_land by reflexivity. apply bytes_recompose.
Qed.

Lemma WriteReg_ReadReg_round_trip_witness :
  MAX30003_WriteReg hmax0 0x15 0xAB805000 (boot (fun _ => ok_reply [])) =
  Done HAL_OK
       (after 1 (transmission hmax0 [0x2A; 0x80; 0x50; 0x00])
          (boot (fun _ => ok_reply []))) /\
  MAX30003_ReadReg hmax0 0x15 0 (boot (fun _ => ok_reply [0; 0x80; 0x50; 0x00])) =
  Done (HAL_OK, 0x805000)
       (after 1 (exchange hmax0 [0x2B; 0; 0; 0])
          (boot (fun _ => ok_reply [0; 0x80; 0x50; 0x00]))).
Proof.
  apply (WriteReg_ReadReg_round_trip hmax0 0x15 0xAB805000
           (boot (fun _ => ok_reply [])) 0x15 0 0
           (boot (fun _ => ok_reply [0; 0x80; 0x50; 0x00]))).
  reflexivity.
Defined.

(** X5.  For a 7-bit address the command bytes can be decoded: both carry
    the address in bits 7..1; bit 0 is 1 in the byte [MAX30003_ReadReg]
    sends and 0 in the byte [MAX30003_WriteReg] sends. *)
Theorem command_byte_decodes hmax addr data v w :
  0 <= addr < 0x80 ->
  exists cr cw p1 p2 p3 r1 r2 w1 w2,
    MAX30003_ReadReg hmax addr data w = Done r1 w1 /\
    calls w1 = calls w ++ exchange hmax [cr; 0; 0; 0] /\
    MAX30003_WriteReg hmax addr v w = Done r2 w2 /\
    calls w2 = calls w ++ transmission hmax [cw; p1; p2; p3] /\
    Z.shiftr cr 1 = addr /\ Z.land cr 1 = 1 /\
    Z.shiftr cw 1 = addr /\ Z.land cw 1 = 0.
Proof.
  intros Ha. rewrite ReadReg_run, WriteReg_run.
  rewrite read_command_fits by assumption.
  rewrite (u8_land (Z.shiftl addr 1) 0xFE) by reflexivity.
  assert (Z.land (Z.shiftl addr 1) 0xFE = Z.shiftl addr 1) as ->.
  { change 0xFE with (Z.shiftl (Z.ones 7) 1).
    rewrite <- Z.shiftl_land, Z.land_ones by lia.
    rewrite Z.mod_small by (change (2 ^ 7) with 128; lia). reflexivity. }
  eexists _, _, _, _, _, _, _, _, _.
  repeat split.
  - rewrite Z.shiftr_lor, Z.shiftr_shiftl_l by lia. cbn. apply Z.lor_0_r.
  - rewrite Z.land_lor_distr_l.
    change 1 with (Z.ones 1) at 2. rewrite Z.land_ones by lia.
    rewrite Z.shiftl_mul_pow2 by lia. change (2 ^ 1) with 2.
    rewrite Z.mod_mul by lia. reflexivity.
  - rewrite Z.shiftr_shiftl_l by lia. cbn. reflexivity.
  - change 1 with (Z.ones 1) at 2. rewrite Z.land_ones by lia.
    rewrite Z.shiftl_mul_pow2 by lia. change (2 ^ 1) with 2.
    apply Z.mod_mul. lia.
Qed.

Lemma command_byte_decodes_witness :
  exists cr cw p1 p2 p3 r1 r2 w1 w2,
    MAX30003_ReadReg hmax0 0x7F 0 (boot (fun _ => ok_reply [])) = Done r1 w1 /\
    calls w1 = calls (boot (fun _ => ok_reply [])) ++ exchange hmax0 [cr; 0; 0; 0] /\
    MAX30003_WriteReg hmax0 0x7F 1 (boot (fun _ => ok_reply [])) = Done r2 w2 /\
    calls w2 =
    calls (boot (fun _ => ok_reply [])) ++ transmission hmax0 [cw; p1; p2; p3] /\
    Z.shiftr cr 1 = 0x7F /\ Z.land cr 1 = 1 /\
    Z.shiftr cw 1 = 0x7F /\ Z.land cw 1 = 0.
Proof.
  apply (command_byte_decodes hmax0 0x7F 0 1 (boot (fun _ => ok_reply []))). lia.
Defined.

Lemma u8_shiftl_alias reg : u8 (Z.shiftl (reg + 0x80) 1) = u8 (Z.shiftl reg 1).
Proof.
  unfold u8. rewrite !Z.shiftl_mul_pow2 by lia.
  replace ((reg + 0x80) * 2 ^ 1) with (reg * 2 ^ 1 + 1 * 2 ^ 8)
    by (change (2 ^ 1) with 2; change (2 ^ 8) with 256; lia).
  apply Z_mod_plus_full.
Qed.

(** X6.  The address is not checked and its top bit is lost: on the bus and
    in its result a call for register [reg + 0x80] is the call for register
    [reg], for reading and for writing. *)
Theorem address_top_bit_ignored hmax reg data w :
  MAX30003_ReadReg hmax (reg + 0x80) data w = MAX30003_ReadReg hmax reg data w /\
  MAX30003_WriteReg hmax (reg + 0x80) data w = MAX30003_WriteReg hmax reg data w.
Proof.
  rewrite !ReadReg_run, !WriteReg_run. split.
  - do 4 f_equal. rewrite !u8_as_land, !Z.land_lor_distr_l, <- !u8_as_land.
    rewrite u8_shiftl_alias. reflexivity.
  - do 4 f_equal. rewrite !u8_land by reflexivity.
    change 0xFE with (Z.land 0xFF 0xFE).
    rewrite !Z.land_assoc, <- !u8_as_land, u8_shiftl_alias. reflexivity.
Qed.

(** X7.  Only the low 24 bits of the value are written: a call with [v] and
    a call with [v & 0xFFFFFF] are the same call. *)
Theorem WriteReg_low_24_bits hmax reg v w :
  MAX30003_WriteReg hmax reg v w = MAX30003_WriteReg hmax reg (Z.land v 0xFFFFFF) w.
Proof.
  rewrite !WriteReg_run. do 4 f_equal.
  rewrite !Z.shiftr_land, <- !Z.land_assoc. reflexivity.
Qed.

(** ** Interrupt status: failures and the eight kinds *)

(** X8.  When the read of STATUS fails, [MAX30003_GetInterruptStatus]
    returns that status after this one exchange: EN_INT is not read and the
    out-parameter keeps its value. *)
Theorem GetInterruptStatus_stops_at_failed_status hmax enabled_active w :
  reply_status (next_reply w) <> HAL_OK ->
  MAX30003_GetInterruptStatus hmax enabled_active w =
  Done (reply_status (next_reply w), enabled_active)
       (after 1 (exchange hmax [Z.lor (Z.shiftl MAX30003_REG_STATUS 1) 1; 0; 0; 0]) w).
Proof. apply GetInterruptStatus_status_failed. Qed.

Lemma GetInterruptStatus_stops_at_failed_status_witness :
  MAX30003_GetInterruptStatus hmax0 0x1234 (boot (fun _ => failed_reply HAL_BUSY)) =
  Done (HAL_BUSY, 0x1234)
       (after 1 (exchange hmax0 [0x03; 0; 0; 0])
          (boot (fun _ => failed_reply HAL_BUSY))).
Proof.
  apply (GetInterruptStatus_stops_at_failed_status hmax0 0x1234
           (boot (fun _ => failed_reply HAL_BUSY))).
  discriminate.
Defined.

(** X9.  When STATUS is read and the read of EN_INT fails, the call returns
    the status of the second exchange after both exchanges; the value read
    from STATUS is dropped and the out-parameter keeps its value. *)
Theorem GetInterruptStatus_failed_en_int_drops_status hmax enabled_active w :
  reply_status (next_reply w) = HAL_OK ->
  reply_status (spi_script w (S (spi_count w))) <> HAL_OK ->
  MAX30003_GetInterruptStatus hmax enabled_active w =
  Done (reply_status (spi_script w (S (spi_count w))), enabled_active)
       (after 2
          (exchange hmax [Z.lor (Z.shiftl MAX30003_REG_STATUS 1) 1; 0; 0; 0] ++
           exchange hmax [Z.lor (Z.shiftl MAX30003_REG_EN_INT 1) 1; 0; 0; 0]) w).
Proof. apply GetInterruptStatus_en_int_failed. Qed.

Lemma GetInterruptStatus_failed_en_int_drops_status_witness :
  MAX30003_GetInterruptStatus hmax0 0x1234
    (boot (fun n => match n with
                    | O => ok_reply (reg_frame 0 0xF00F00)
                    | _ => failed_reply HAL_TIMEOUT
                    end)) =
  Done (HAL_TIMEOUT, 0x1234)
       (after 2 (exchange hmax0 [0x03; 0; 0; 0] ++ exchange hmax0 [0x05; 0; 0; 0])
          (boot (fun n => match n with
                          | O => ok_reply (reg_frame 0 0xF00F00)
                          | _ => failed_reply HAL_TIMEOUT
                          end))).
Proof.
  apply (GetInterruptStatus_failed_en_int_drops_status hmax0 0x1234
           (boot (fun n => match n with
                           | O => ok_reply (reg_frame 0 0xF00F00)
                           | _ => failed_reply HAL_TIMEOUT
                           end))).
  - reflexivity.
  - discriminate.
Defined.

Lemma land_single_bit x k :
  0 <= k -> Z.land x (Z.shiftl 1 k) = if Z.testbit x k then Z.shiftl 1 k else 0.
Proof.
  intros Hk. rewrite Z.shiftl_1_l. apply Z.bits_inj'. intros i Hi.
  rewrite Z.land_spec, Z.pow2_bits_eqb by assumption.
  destruct (Z.eqb_spec k i) as [-> | Hne].
  - destruct (Z.testbit x i); cbn.
    + rewrite Z.pow2_bits_true by assumption. reflexivity.
    + rewrite Z.bits_0. reflexivity.
  - rewrite andb_false_r. destruct (Z.testbit x k).
    + rewrite Z.pow2_bits_false by lia. reflexivity.
    + rewrite Z.bits_0. reflexivity.
Qed.

Lemma flag_set_single_bit x k : 0 <= k -> flag_set x (Z.shiftl 1 k) = Z.testbit x k.
Proof.
  intros Hk. unfold flag_set. rewrite land_single_bit by assumption.
  destruct (Z.testbit x k); [| reflexivity].
  rewrite Z.shiftl_1_l.
  pose proof (Z.pow_pos_nonneg 2 k ltac:(lia) Hk).
  destruct (Z.eqb_spec (2 ^ k) 0); [lia | reflexivity].
Qed.

Lemma mask_position mask :
  In mask interrupt_masks ->
  exists k, 0 <= k /\ mask = Z.shiftl 1 k /\ Z.testbit 0xF00F00 k = true.
Proof.
  unfold interrupt_masks. cbn [In].
  intros [<- | [<- | [<- | [<- | [<- | [<- | [<- | [<- | []]]]]]]]];
    [exists 23 | exists 22 | exists 21 | exists 20
     | exists 11 | exists 10 | exists 9 | exists 8];
    (split; [lia | split; reflexivity]).
Qed.

(** X10.  With both reads good, each of the eight interrupt kinds the
    handler tests is reported exactly when its bit is set in STATUS and in
    EN_INT. *)
Theorem interrupt_reported_when_active_and_enabled
    hmax enabled_active status en_int b0 b1 w mask :
  0 <= status < 2 ^ 24 ->
  0 <= en_int < 2 ^ 24 ->
  spi_script w (spi_count w) = ok_reply (reg_frame b0 status) ->
  spi_script w (S (spi_count w)) = ok_reply (reg_frame b1 en_int) ->
  In mask interrupt_masks ->
  exists v w',
    MAX30003_GetInterruptStatus hmax enabled_active w = Done (HAL_OK, v) w' /\
    flag_set v mask = flag_set status mask && flag_set en_int mask.
Proof.
  intros Hs He R0 R1 Hm.
  rewrite (GetInterruptStatus_frames hmax enabled_active status en_int b0 b1)
    by assumption.
  eexists _, _. split; [reflexivity |].
  destruct (mask_position mask Hm) as (k & Hk & -> & Hbit).
  rewrite !flag_set_single_bit by assumption.
  rewrite !Z.land_spec, Hbit. apply andb_true_r.
Qed.

Lemma interrupt_reported_when_active_and_enabled_witness :
  exists v w',
    MAX30003_GetInterruptStatus hmax0 0
      (boot (fun n => match n with
                      | O => ok_reply (reg_frame 0 0x800400)
                      | _ => ok_reply (reg_frame 0 0xC00003)
                      end)) = Done (HAL_OK, v) w' /\
    flag_set v MAX30003_INT_RRINT =
    flag_set 0x800400 MAX30003_INT_RRINT && flag_set 0xC00003 MAX30003_INT_RRINT.
Proof.
  apply (interrupt_reported_when_active_and_enabled hmax0 0 0x800400 0xC00003 0 0
           (boot (fun n => match n with
                           | O => ok_reply (reg_frame 0 0x800400)
                           | _ => ok_reply (reg_frame 0 0xC00003)
                           end)) MAX30003_INT_RRINT);
    [lia | lia | reflexivity | reflexivity |].
  unfold interrupt_masks. cbn [In]. do 5 right. left. reflexivity.
Defined.

(** ** FIFO burst read: failures, bounds and delivered samples *)

Lemma rx_history_last script j :
  forall n rx,
    rx_history script n rx (S j) =
    receive (reply_rx (script (n + j)%nat)) 4 (rx_history script n rx j).
Proof.
  induction j as [| j IH]; intros n rx.
  - cbn [rx_history]. rewrite Nat.add_0_r. reflexivity.
  - change (rx_history script n rx (S (S j)))
      with (rx_history script (S n) (receive (reply_rx (script n)) 4 rx) (S j)).
    rewrite IH. replace (S n + j)%nat with (n + S j)%nat by lia. reflexivity.
Qed.

Section BurstData.

Variable hmax : MAX30003_HandleTypeDef.

(** All exchanges good: every entry of the range holds the word of its own
    exchange, the others keep their content. *)
Lemma ReadFIFO_loop_contents remaining :
  forall i tx rx cells w,
    (i + remaining <= length cells)%nat ->
    (forall j, (j < remaining)%nat ->
               reply_status (spi_script w (j + spi_count w)%nat) = HAL_OK) ->
    exists cells' w',
      ReadFIFO_loop hmax remaining i tx rx HAL_OK (Array cells) w =
      Done (HAL_OK, Array cells') w' /\
      length cells' = length cells /\
      (forall j, (j < remaining)%nat ->
                 cells' !! (i + j)%nat =
                 Some (rx_word (rx_history (spi_script w) (spi_count w) rx (S j)))) /\
      (forall p, (p < i)%nat \/ (i + remaining <= p)%nat -> cells' !! p = cells !! p).
Proof.
  induction remaining as [| r IH]; intros i tx rx cells w Hlen Hok.
  - exists cells, w. split; [reflexivity |]. split; [reflexivity |].
    split; [intros j Hj; lia | reflexivity].
  - rewrite ReadFIFO_loop_step by lia.
    assert (reply_status (next_reply w) = HAL_OK) as ->
      by (apply (Hok 0%nat); lia).
    edestruct (IH (S i)
                 (if decide (i = 0%nat) then <[0%nat := 0]> tx else tx)
                 (receive (reply_rx (next_reply w)) 4 rx)
                 (<[i := rx_word (receive (reply_rx (next_reply w)) 4 rx)]> cells)
                 (after 1 (exchange hmax (take 4 tx)) w))
      as (cells' & w' & E & Hl & Hin & Hout).
    + rewrite length_insert. lia.
    + intros j Hj. cbn [after spi_script spi_count].
      replace (j + (1 + spi_count w))%nat with (S j + spi_count w)%nat by lia.
      apply Hok. lia.
    + cbn [after spi_script spi_count] in Hin.
      exists cells', w'. split; [exact E |].
      split; [rewrite Hl; apply length_insert |]. split.
      * intros [| j] Hj.
        -- rewrite Nat.add_0_r, Hout by lia.
           cbn [rx_history]. apply list_lookup_insert_eq. lia.
        -- replace (i + S j)%nat with (S i + j)%nat by lia.
           rewrite Hin by lia. reflexivity.
      * intros p Hp. rewrite Hout by lia. apply list_lookup_insert_ne. lia.
Qed.

(** Whatever the pointer, the script and the status, the loop adds whole
    exchanges to the trace, at most [remaining] of them. *)
Lemma ReadFIFO_loop_frames remaining :
  forall i tx rx st p w,
    exists txs,
      (length txs <= remaining)%nat /\
      world_of (ReadFIFO_loop hmax remaining i tx rx st p w) =
      after (length txs) (flat_map (exchange hmax) txs) w.
Proof.
  induction remaining as [| r IH]; intros i tx rx st p w.
  - exists []. split; [cbn; lia |]. cbn. symmetry. apply after_0_nil.
  - destruct (decide (st = HAL_OK)) as [-> | Hst].
    + destruct p as [| cells].
      * rewrite ReadFIFO_loop_null. exists [take 4 tx].
        split; [cbn; lia |]. cbn [world_of flat_map length]. rewrite app_nil_r.
        reflexivity.
      * destruct (decide (i < length cells)%nat) as [Hi | Hi].
        -- rewrite ReadFIFO_loop_step by assumption.
           destruct (IH (S i)
                       (if decide (i = 0%nat) then <[0%nat := 0]> tx else tx)
                       (receive (reply_rx (next_reply w)) 4 rx)
                       (reply_status (next_reply w))
                       (Array (<[i := rx_word (receive (reply_rx (next_reply w)) 4 rx)]>
                                 cells))
                       (after 1 (exchange hmax (take 4 tx)) w))
             as (txs & Hn & E).
           exists (take 4 tx :: txs). split; [cbn; lia |].
           rewrite E, after_after. reflexivity.
        -- exists [take 4 tx]. split; [cbn; lia |].
           cbn [ReadFIFO_loop]. destruct (decide (HAL_OK = HAL_OK)); [| congruence].
           unfold bind at 1. rewrite SPI_TransmitReceive_run.
           unfold bind at 1, store_u32.
           destruct (decide (i < length cells)%nat); [contradiction |].
           cbn [world_of flat_map length]. rewrite app_nil_r. reflexivity.
    + rewrite ReadFIFO_loop_stop by assumption.
      exists []. split; [cbn; lia |]. cbn. symmetry. apply after_0_nil.
Qed.

End BurstData.

(** X11.  If the [k]-th exchange of [MAX30003_ReadFIFO] is the first that
    fails, the call returns the status of that exchange after exactly [k]
    transfers.  The entries [0 .. k-1] of the array, the entry of the failed
    exchange included, hold the word rebuilt from the receive buffer after
    their exchange; the entries from [k] on keep their content. *)
Theorem ReadFIFO_stops_at_first_failure hmax cells count k w :
  (1 <= k <= Z.to_nat count)%nat ->
  (k <= length cells)%nat ->
  (forall j, (j < k - 1)%nat ->
             reply_status (spi_script w (spi_count w + j)%nat) = HAL_OK) ->
  reply_status (spi_script w (spi_count w + (k - 1))%nat) <> HAL_OK ->
  exists cells' w',
    MAX30003_ReadFIFO hmax (Array cells) count w =
    Done (reply_status (spi_script w (spi_count w + (k - 1))%nat), Array cells') w' /\
    spi_count w' = (spi_count w + k)%nat /\
    (forall j, (j < k)%nat ->
               cells' !! j =
               Some (rx_word (rx_history (spi_script w) (spi_count w) [0; 0; 0; 0] (S j)))) /\
    (forall p, (k <= p)%nat -> cells' !! p = cells !! p).
Proof. apply ReadFIFO_first_failure. Qed.

Lemma ReadFIFO_stops_at_first_failure_witness :
  exists cells' w',
    MAX30003_ReadFIFO hmax0 (Array [9; 9; 9; 9; 9]) 5 (boot third_exchange_fails) =
    Done (HAL_TIMEOUT, Array cells') w' /\
    spi_count w' = 3%nat /\
    (forall j, (j < 3)%nat ->
               cells' !! j =
               Some (rx_word (rx_history third_exchange_fails 0 [0; 0; 0; 0] (S j)))) /\
    (forall p, (3 <= p)%nat -> cells' !! p = [9; 9; 9; 9; 9] !! p).
Proof.
  apply (ReadFIFO_stops_at_first_failure hmax0 [9; 9; 9; 9; 9] 5 3
           (boot third_exchange_fails)).
  - cbn. lia.
  - cbn. lia.
  - intros [| [| j]] Hj; [reflexivity | reflexivity | cbn in Hj; lia].
  - cbn. discriminate.
Defined.

(** X12.  Whatever the output pointer, the replies and the way the call
    ends, [MAX30003_ReadFIFO] makes at most [count] transfers, and what it
    adds to the trace is a sequence of whole exchanges: chip select is low
    for one transfer at a time and is high again when the call ends. *)
Theorem ReadFIFO_whole_exchanges_only hmax p count w :
  exists txs,
    (length txs <= Z.to_nat count)%nat /\
    world_of (MAX30003_ReadFIFO hmax p count w) =
    after (length txs) (flat_map (exchange hmax) txs) w.
Proof. apply ReadFIFO_loop_frames. Qed.

(** X13.  A null output pointer is harmless only for [count = 0], where
    nothing is exchanged; for any other count the call makes one exchange
    and then stores through the null pointer. *)
Theorem ReadFIFO_null_pointer hmax count w :
  0 <= count ->
  MAX30003_ReadFIFO hmax NULL count w =
  if count =? 0 then Done (HAL_OK, NULL) w
  else Fault (after 1
                (exchange hmax
                   [Z.lor (Z.shiftl (if 1 <? count
                                     then MAX30003_FIFO_CMD_ECG_BURST
                                     else MAX30003_FIFO_CMD_ECG) 1) 1; 0; 0; 0]) w).
Proof.
  intros H. destruct (Z.eqb_spec count 0) as [-> | Hne].
  - reflexivity.
  - apply ReadFIFO_null. lia.
Qed.

Lemma ReadFIFO_null_pointer_witness :
  MAX30003_ReadFIFO hmax0 NULL 32 (boot (fun _ => ok_reply [0; 0; 0; 0x40])) =
  Fault (after 1 (exchange hmax0 [0x41; 0; 0; 0])
           (boot (fun _ => ok_reply [0; 0; 0; 0x40]))).
Proof.
  apply (ReadFIFO_null_pointer hmax0 32 (boot (fun _ => ok_reply [0; 0; 0; 0x40]))).
  lia.
Defined.

(** X14.  When the device answers the [count] exchanges with success and
    sends the 24-bit words [sample 0], [sample 1], ..., the call returns
    [HAL_OK], entry [j] of the array holds [sample j] for every [j < count],
    and the entries from [count] on keep their content. *)
Theorem ReadFIFO_delivers_samples hmax cells count (sample b0 : nat -> Z) w :
  0 <= count <= 255 ->
  (Z.to_nat count <= length cells)%nat ->
  (forall j, (j < Z.to_nat count)%nat ->
             0 <= sample j < 2 ^ 24 /\
             spi_script w (spi_count w + j)%nat =
             ok_reply (reg_frame (b0 j) (sample j))) ->
  exists cells' w',
    MAX30003_ReadFIFO hmax (Array cells) count w = Done (HAL_OK, Array cells') w' /\
    length cells' = length cells /\
    (forall j, (j < Z.to_nat count)%nat -> cells' !! j = Some (sample j)) /\
    (forall p, (Z.to_nat count <= p)%nat -> cells' !! p = cells !! p).
Proof.
  intros Hc Hlen Hs. unfold MAX30003_ReadFIFO.
  edestruct (ReadFIFO_loop_contents hmax (Z.to_nat count) 0
               (<[0%nat := u8 (Z.lor (Z.shiftl (if 1 <? count
                                                then MAX30003_FIFO_CMD_ECG_BURST
                                                else MAX30003_FIFO_CMD_ECG) 1) 1)]>
                  [0; 0; 0; 0])
               [0; 0; 0; 0] cells w)
    as (cells' & w' & E & Hl & Hin & Hout).
  - lia.
  - intros j Hj. rewrite Nat.add_comm.
    destruct (Hs j Hj) as [_ ->]. reflexivity.
  - exists cells', w'. split; [exact E |]. split; [exact Hl |]. split.
    + intros j Hj. pose proof (Hin j Hj) as Hj'. cbn [Nat.add] in Hj'.
      rewrite Hj', rx_history_last.
      destruct (Hs j Hj) as [Hr ->]. cbn [reply_rx ok_reply].
      rewrite rx_word_receive_frame by assumption. reflexivity.
    + intros p Hp. apply Hout. lia.
Qed.

Lemma ReadFIFO_delivers_samples_witness :
  exists cells' w',
    MAX30003_ReadFIFO hmax0 (Array [9; 9; 9; 9]) 3
      (boot (fun n => ok_reply (reg_frame 0 (0x100 * Z.of_nat n + 0x40)))) =
    Done (HAL_OK, Array cells') w' /\
    length cells' = 4%nat /\
    (forall j, (j < Z.to_nat 3)%nat -> cells' !! j = Some (0x100 * Z.of_nat j + 0x40)) /\
    (forall p, (Z.to_nat 3 <= p)%nat -> cells' !! p = [9; 9; 9; 9] !! p).
Proof.
  apply (ReadFIFO_delivers_samples hmax0 [9; 9; 9; 9] 3
           (fun j => 0x100 * Z.of_nat j + 0x40) (fun _ => 0)
           (boot (fun n => ok_reply (reg_frame 0 (0x100 * Z.of_nat n + 0x40))))).
  - lia.
  - cbn. lia.
  - intros j Hj. change (Z.to_nat 3) with 3%nat in Hj. split; [lia | reflexivity].
Defined.

(** ** Device handle set-up *)

Lemma log_call_as_after c w : log_call c w = after 0 [c] w.
Proof. reflexivity. Qed.

(** X15.  [MAX30003_Init] refuses a null SPI handle before it touches
    anything: no pin is driven and the device handle keeps its content.
    With any other SPI handle it succeeds, whatever the port and the pin,
    drives chip select high, and a read made with the handle it filled in
    goes to the peripheral, port and pin that were passed, nothing of the
    former content of the handle being used. *)
Theorem Init_then_ReadReg hmax hspi cs_port cs_pin reg data w :
  (hspi = 0 ->
   MAX30003_Init hmax hspi cs_port cs_pin w = Done (HAL_ERROR, hmax) w) /\
  (hspi <> 0 ->
   (let* (_, hmax') := MAX30003_Init hmax hspi cs_port cs_pin in
    MAX30003_ReadReg hmax' reg data) w =
   Done (reply_status (next_reply w),
         if decide (reply_status (next_reply w) = HAL_OK)
         then rx_word (next_rx w) else data)
        (after 1
           [GPIO_WritePin cs_port cs_pin GPIO_PIN_SET;
            GPIO_WritePin cs_port cs_pin GPIO_PIN_RESET;
            SPI_TransmitReceive hspi [u8 (Z.lor (Z.shiftl reg 1) 1); 0; 0; 0]
              4 MAX30003_SPI_TIMEOUT;
            GPIO_WritePin cs_port cs_pin GPIO_PIN_SET] w)).
Proof.
  unfold MAX30003_Init. split; intros H.
  - destruct (decide (hspi = 0)); [reflexivity | contradiction].
  - destruct (decide (hspi = 0)); [contradiction |].
    unfold bind at 1. unfold bind at 1. unfold HAL_GPIO_WritePin, ret.
    rewrite ReadReg_run, log_call_as_after, after_after. reflexivity.
Qed.

Lemma Init_then_ReadReg_witness :
  MAX30003_Init hmax0 0 0x40020400 0x0001 (boot (fun _ => ok_reply [])) =
  Done (HAL_ERROR, hmax0) (boot (fun _ => ok_reply [])) /\
  (let* (_, hmax') := MAX30003_Init hmax0 0x40003800 0x40020400 0x0001 in
   MAX30003_ReadReg hmax' 0x0F 0) (boot (fun _ => ok_reply [0; 0x52; 0; 0])) =
  Done (HAL_OK, 0x520000)
       (after 1
          [GPIO_WritePin 0x40020400 0x0001 GPIO_PIN_SET;
           GPIO_WritePin 0x40020400 0x0001 GPIO_PIN_RESET;
           SPI_TransmitReceive 0x40003800 [0x1F; 0; 0; 0] 4 MAX30003_SPI_TIMEOUT;
           GPIO_WritePin 0x40020400 0x0001 GPIO_PIN_SET]
          (boot (fun _ => ok_reply [0; 0x52; 0; 0]))).
Proof.
  split.
  - apply (proj1 (Init_then_ReadReg hmax0 0 0x40020400 0x0001 0 0
                    (boot (fun _ => ok_reply [])))).
    reflexivity.
  - rewrite (proj2 (Init_then_ReadReg hmax0 0x40003800 0x40020400 0x0001 0x0F 0
                      (boot (fun _ => ok_reply [0; 0x52; 0; 0]))))
      by discriminate.
    reflexivity.
Defined.

(** ** Register configuration: chains of writes *)

Section Chain.

Variable hmax : MAX30003_HandleTypeDef.

Lemma WriteReg_run_frame reg data w :
  MAX30003_WriteReg hmax reg data w =
  Done (reply_status (next_reply w))
       (after 1 (transmission hmax (write_frame (reg, data))) w).
Proof.
  rewrite WriteReg_run. unfold write_frame. cbn [fst snd].
  rewrite !u8_land by reflexivity. reflexivity.
Qed.

Lemma write_chain_all_good regs :
  forall w,
    (forall j, (j < length regs)%nat ->
               reply_status (spi_script w (j + spi_count w)%nat) = HAL_OK) ->
    write_chain hmax regs w =
    Done HAL_OK
         (after (length regs) (flat_map (transmission hmax) (map write_frame regs)) w).
Proof.
  induction regs as [| [reg data] rest IH]; intros w Hok.
  - cbn. rewrite after_0_nil. reflexivity.
  - cbn [write_chain]. unfold bind at 1. rewrite WriteReg_run_frame.
    assert (reply_status (next_reply w) = HAL_OK) as ->
      by (apply (Hok 0%nat); cbn; lia).
    destruct (decide (HAL_OK <> HAL_OK)); [congruence |].
    rewrite IH.
    + rewrite after_after. reflexivity.
    + intros j Hj. cbn [after spi_script spi_count].
      replace (j + (1 + spi_count w))%nat with (S j + spi_count w)%nat by lia.
      apply Hok. cbn. lia.
Qed.

Lemma write_chain_first_failure regs :
  forall k w,
    (k < length regs)%nat ->
    (forall j, (j < k)%nat ->
               reply_status (spi_script w (j + spi_count w)%nat) = HAL_OK) ->
    reply_status (spi_script w (k + spi_count w)%nat) <> HAL_OK ->
    write_chain hmax regs w =
    Done (reply_status (spi_script w (k + spi_count w)%nat))
         (after (S k)
            (flat_map (transmission hmax) (take (S k) (map write_frame regs))) w).
Proof.
  induction regs as [| [reg data] rest IH]; intros k w Hk Hok Hfail.
  - cbn in Hk. lia.
  - cbn [write_chain]. unfold bind at 1. rewrite WriteReg_run_frame.
    destruct k as [| k].
    + change (spi_script w (0 + spi_count w)%nat) with (next_reply w) in *.
      destruct (decide (reply_status (next_reply w) <> HAL_OK)); [| contradiction].
      cbn [map take flat_map]. rewrite firstn_O. cbn [flat_map].
      rewrite app_nil_r. reflexivity.
    + assert (reply_status (next_reply w) = HAL_OK) as ->
        by (apply (Hok 0%nat); lia).
      destruct (decide (HAL_OK <> HAL_OK)); [congruence |].
      rewrite (IH k).
      * cbn [after spi_script spi_count]. rewrite after_after.
        replace (k + (1 + spi_count w))%nat with (S k + spi_count w)%nat by lia.
        reflexivity.
      * cbn in Hk. lia.
      * intros j Hj. cbn [after spi_script spi_count].
        replace (j + (1 + spi_count w))%nat with (S j + spi_count w)%nat by lia.
        apply Hok. lia.
      * cbn [after spi_script spi_count].
        replace (k + (1 + spi_count w))%nat with (S k + spi_count w)%nat by lia.
        assumption.
Qed.

Lemma ConfigureRegisters_chain w :
  MAX30003_ConfigureRegisters hmax w = write_chain hmax custom_config w.
Proof. reflexivity. Qed.

Lemma ConfigureRegistersDefault_chain w :
  MAX30003_ConfigureRegistersDefault hmax w = write_chain hmax default_config w.
Proof. reflexivity. Qed.

End Chain.

(** X16.  [MAX30003_ConfigureRegisters] writes its ten registers in the
    order EN_INT, EN_INT2, MNGR_INT, MNGR_DYN, CNFG_GEN, CNFG_CAL, CNFG_EMUX,
    CNFG_ECG, CNFG_RTOR1, CNFG_RTOR2 and returns [HAL_OK] when every write
    succeeds.  When write number [k] (counted from 0) is the first to fail,
    it returns the status of that write at once: the registers before it
    stay written, the registers after it are not written. *)
Theorem ConfigureRegisters_stops_at_first_failure hmax w k :
  ((forall j, (j < 10)%nat ->
              reply_status (spi_script w (spi_count w + j)%nat) = HAL_OK) ->
   MAX30003_ConfigureRegisters hmax w =
   Done HAL_OK
        (after 10 (flat_map (transmission hmax) (map write_frame custom_config)) w)) /\
  ((k < 10)%nat ->
   (forall j, (j < k)%nat ->
              reply_status (spi_script w (spi_count w + j)%nat) = HAL_OK) ->
   reply_status (spi_script w (spi_count w + k)%nat) <> HAL_OK ->
   MAX30003_ConfigureRegisters hmax w =
   Done (reply_status (spi_script w (spi_count w + k)%nat))
        (after (S k)
           (flat_map (transmission hmax) (take (S k) (map write_frame custom_config)))
           w)).
Proof.
  rewrite ConfigureRegisters_chain. split.
  - intros Hok. apply (write_chain_all_good hmax custom_config).
    intros j Hj. rewrite Nat.add_comm. apply Hok, Hj.
  - intros Hk Hok Hfail. rewrite (Nat.add_comm (spi_count w) k) in *.
    apply write_chain_first_failure; [exact Hk | | exact Hfail].
    intros j Hj. rewrite Nat.add_comm. apply Hok, Hj.
Qed.

Lemma ConfigureRegisters_stops_at_first_failure_witness :
  MAX30003_ConfigureRegisters hmax0
    (boot (fun n => match n with
                    | 2%nat => failed_reply HAL_TIMEOUT
                    | _ => ok_reply []
                    end)) =
  Done HAL_TIMEOUT
    (after 3
       (transmission hmax0 [0x04; 0xC0; 0x00; 0x03] ++
        transmission hmax0 [0x06; 0xC0; 0x00; 0x03] ++
        transmission hmax0 [0x08; 0xF8; 0x00; 0x04])
       (boot (fun n => match n with
                       | 2%nat => failed_reply HAL_TIMEOUT
                       | _ => ok_reply []
                       end))).
Proof.
  rewrite (proj2 (ConfigureRegisters_stops_at_first_failure hmax0
                    (boot (fun n => match n with
                                    | 2%nat => failed_reply HAL_TIMEOUT
                                    | _ => ok_reply []
                                    end)) 2)).
  - reflexivity.
  - lia.
  - intros [| [| j]] Hj; [reflexivity | reflexivity | lia].
  - cbn. discriminate.
Defined.

(** X17.  [MAX30003_ConfigureRegistersDefault] writes the ten default values
    to the same registers in the same order, returns [HAL_OK] when every
    write succeeds, and stops with the status of the first write that
    fails, leaving the later registers unwritten. *)
Theorem ConfigureRegistersDefault_stops_at_first_failure hmax w k :
  ((forall j, (j < 10)%nat ->
              reply_status (spi_script w (spi_count w + j)%nat) = HAL_OK) ->
   MAX30003_ConfigureRegistersDefault hmax w =
   Done HAL_OK
        (after 10 (flat_map (transmission hmax) (map write_frame default_config)) w)) /\
  ((k < 10)%nat ->
   (forall j, (j < k)%nat ->
              reply_status (spi_script w (spi_count w + j)%nat) = HAL_OK) ->
   reply_status (spi_script w (spi_count w + k)%nat) <> HAL_OK ->
   MAX30003_ConfigureRegistersDefault hmax w =
   Done (reply_status (spi_script w (spi_count w + k)%nat))
        (after (S k)
           (flat_map (transmission hmax) (take (S k) (map write_frame default_config)))
           w)).
Proof.
  rewrite ConfigureRegistersDefault_chain. split.
  - intros Hok. apply (write_chain_all_good hmax default_config).
    intros j Hj. rewrite Nat.add_comm. apply Hok, Hj.
  - intros Hk Hok Hfail. rewrite (Nat.add_comm (spi_count w) k) in *.
    apply write_chain_first_failure; [exact Hk | | exact Hfail].
    intros j Hj. rewrite Nat.add_comm. apply Hok, Hj.
Qed.

Lemma ConfigureRegistersDefault_stops_at_first_failure_witness :
  MAX30003_ConfigureRegistersDefault hmax0 (boot (fun _ => ok_reply [])) =
  Done HAL_OK
    (after 10
       (transmission hmax0 [0x04; 0x00; 0x00; 0x03] ++
        transmission hmax0 [0x06; 0x00; 0x00; 0x03] ++
        transmission hmax0 [0x08; 0x78; 0x00; 0x04] ++
        transmission hmax0 [0x0A; 0x3F; 0x00; 0x00] ++
        transmission hmax0 [0x20; 0x00; 0x00; 0x04] ++
        transmission hmax0 [0x24; 0x00; 0x48; 0x00] ++
        transmission hmax0 [0x28; 0x30; 0x00; 0x00] ++
        transmission hmax0 [0x2A; 0x80; 0x50; 0x00] ++
        transmission hmax0 [0x3A; 0x3F; 0x23; 0x00] ++
        transmission hmax0 [0x3C; 0x20; 0x24; 0x00])
       (boot (fun _ => ok_reply []))).
Proof.
  rewrite (proj1 (ConfigureRegistersDefault_stops_at_first_failure hmax0
                    (boot (fun _ => ok_reply [])) 0)).
  - reflexivity.
  - intros j _. reflexivity.
Defined.

(** ** Configuration and interrupts together *)

(** X18.  While EN_INT holds the value [MAX30003_ConfigureRegisters] writes
    to it, [MAX30003_GetInterruptStatus] can report only the FIFO threshold
    and the FIFO overflow, whatever STATUS holds: of the eight tests of the
    handler the six others cannot succeed. *)
Theorem configured_device_reports_only_fifo_interrupts
    hmax enabled_active status b0 b1 w mask :
  0 <= status < 2 ^ 24 ->
  spi_script w (spi_count w) = ok_reply (reg_frame b0 status) ->
  spi_script w (S (spi_count w)) = ok_reply (reg_frame b1 EN_INT_value) ->
  In mask interrupt_masks ->
  exists v w',
    MAX30003_GetInterruptStatus hmax enabled_active w = Done (HAL_OK, v) w' /\
    (flag_set v mask = true ->
     mask = MAX30003_INT_EINT \/ mask = MAX30003_INT_EOVF).
Proof.
  intros Hs R0 R1 Hm.
  rewrite (GetInterruptStatus_frames hmax enabled_active status EN_INT_value b0 b1)
    by (try assumption; vm_compute; split; congruence).
  eexists _, _. split; [reflexivity |].
  unfold interrupt_masks in Hm. cbn [In] in Hm.
  destruct Hm as [<- | [<- | [<- | [<- | [<- | [<- | [<- | [<- | []]]]]]]]];
    [left; reflexivity | right; reflexivity | | | | | |];
    unfold MAX30003_INT_FSTINT, MAX30003_INT_DCLOFFINT, MAX30003_INT_LONINT,
      MAX30003_INT_RRINT, MAX30003_INT_SAMP, MAX30003_INT_PLLINT;
    rewrite flag_set_single_bit by lia;
    rewrite !Z.land_spec;
    match goal with
    | |- context [Z.testbit EN_INT_value ?k] =>
        change (Z.testbit EN_INT_value k) with false
    end;
    rewrite andb_false_r; discriminate.
Qed.

Lemma configured_device_reports_only_fifo_interrupts_witness :
  exists v w',
    MAX30003_GetInterruptStatus hmax0 0
      (boot (fun n => match n with
                      | O => ok_reply (reg_frame 0 0xF00F00)
                      | _ => ok_reply (reg_frame 0 EN_INT_value)
                      end)) = Done (HAL_OK, v) w' /\
    flag_set 0xF00F00 MAX30003_INT_RRINT = true /\
    flag_set v MAX30003_INT_RRINT = false.
Proof.
  destruct (configured_device_reports_only_fifo_interrupts hmax0 0 0xF00F00 0 0
              (boot (fun n => match n with
                              | O => ok_reply (reg_frame 0 0xF00F00)
                              | _ => ok_reply (reg_frame 0 EN_INT_value)
                              end)) MAX30003_INT_RRINT)
    as (v & w' & E & H);
    [lia | reflexivity | reflexivity
     | unfold interrupt_masks; cbn [In]; do 5 right; left; reflexivity |].
  exists v, w'. split; [exact E |]. split; [reflexivity |].
  destruct (flag_set v MAX30003_INT_RRINT); [| reflexivity].
  destruct (H eq_refl) as [K | K]; discriminate K.
Defined.

(** ** Interrupt handler: what it does for each kind *)

(** X19.  With both reads good and neither the threshold nor the overflow
    bit both enabled and active, the handler does nothing after the two
    reads, whichever of the six other kinds are reported. *)
Theorem IRQHandler_acts_on_fifo_kinds_only hmax enabled_active status en_int b0 b1 w :
  0 <= status < 2 ^ 24 ->
  0 <= en_int < 2 ^ 24 ->
  spi_script w (spi_count w) = ok_reply (reg_frame b0 status) ->
  spi_script w (S (spi_count w)) = ok_reply (reg_frame b1 en_int) ->
  flag_set (Z.land (Z.land status en_int) 0xF00F00) MAX30003_INT_EINT = false ->
  flag_set (Z.land (Z.land status en_int) 0xF00F00) MAX30003_INT_EOVF = false ->
  MAX30003_IRQHandler hmax enabled_active w =
  Done tt (after 2
             (exchange hmax [Z.lor (Z.shiftl MAX30003_REG_STATUS 1) 1; 0; 0; 0] ++
              exchange hmax [Z.lor (Z.shiftl MAX30003_REG_EN_INT 1) 1; 0; 0; 0]) w).
Proof.
  intros Hs He R0 R1 Hth Hov.
  rewrite (IRQHandler_no_threshold hmax enabled_active _ _ w _
             (GetInterruptStatus_frames hmax enabled_active status en_int b0 b1 w
                Hs He R0 R1) Hth).
  rewrite Hov. reflexivity.
Qed.

Lemma IRQHandler_acts_on_fifo_kinds_only_witness :
  MAX30003_IRQHandler hmax0 0 (boot (fun _ => ok_reply (reg_frame 0 0x300F00))) =
  Done tt (after 2
             (exchange hmax0 [0x03; 0; 0; 0] ++ exchange hmax0 [0x05; 0; 0; 0])
             (boot (fun _ => ok_reply (reg_frame 0 0x300F00)))).
Proof.
  apply (IRQHandler_acts_on_fifo_kinds_only hmax0 0 0x300F00 0x300F00 0 0
           (boot (fun _ => ok_reply (reg_frame 0 0x300F00))));
    [lia | lia | reflexivity | reflexivity | reflexivity | reflexivity].
Defined.

(** X20.  With both reads good, the overflow bit enabled and active and the
    threshold bit not, the handler makes exactly one more transfer, the
    write of the value 0 to FIFO_RST (bytes [0x14, 0, 0, 0]), and returns. *)
Theorem IRQHandler_resets_fifo_on_overflow hmax enabled_active status en_int b0 b1 w :
  0 <= status < 2 ^ 24 ->
  0 <= en_int < 2 ^ 24 ->
  spi_script w (spi_count w) = ok_reply (reg_frame b0 status) ->
  spi_script w (S (spi_count w)) = ok_reply (reg_frame b1 en_int) ->
  flag_set (Z.land (Z.land status en_int) 0xF00F00) MAX30003_INT_EINT = false ->
  flag_set (Z.land (Z.land status en_int) 0xF00F00) MAX30003_INT_EOVF = true ->
  MAX30003_IRQHandler hmax enabled_active w =
  Done tt (after 3
             (exchange hmax [Z.lor (Z.shiftl MAX30003_REG_STATUS 1) 1; 0; 0; 0] ++
              exchange hmax [Z.lor (Z.shiftl MAX30003_REG_EN_INT 1) 1; 0; 0; 0] ++
              transmission hmax (write_frame (MAX30003_REG_FIFO_RST, 0))) w).
Proof. apply IRQHandler_overflow. Qed.

Lemma IRQHandler_resets_fifo_on_overflow_witness :
  MAX30003_IRQHandler hmax0 0 (boot (fun _ => ok_reply (reg_frame 0 0x400100))) =
  Done tt (after 3
             (exchange hmax0 [0x03; 0; 0; 0] ++ exchange hmax0 [0x05; 0; 0; 0] ++
              transmission hmax0 [0x14; 0; 0; 0])
             (boot (fun _ => ok_reply (reg_frame 0 0x400100)))).
Proof.
  apply (IRQHandler_resets_fifo_on_overflow hmax0 0 0x400100 0x400100 0 0
           (boot (fun _ => ok_reply (reg_frame 0 0x400100))));
    [lia | lia | reflexivity | reflexivity | reflexivity | reflexivity].
Defined.

(** The rate field of CNFG_ECG (bits 23..22) is [0b10] in the default value;
    ORing the option [MAX30003_CNFG_ECG_RATE_512], which is 0, leaves it so. *)
Example CNFG_ECG_rate_field_keeps_default :
  Z.land (Z.shiftr CNFG_ECG_value 22) 0x3 =
  Z.land (Z.shiftr MAX30003_CNFG_ECG_DEFAULT_CONFIG 22) 0x3 /\
  Z.land (Z.shiftr CNFG_ECG_value 22) 0x3 = 2.
Proof. split; reflexivity. Qed.

(** X21.  The configuration can add bits to the defaults and can clear
    none: register by register, the value [MAX30003_ConfigureRegisters]
    writes contains every bit of the value
    [MAX30003_ConfigureRegistersDefault] writes to the same register. *)
Theorem ConfigureRegisters_keeps_default_bits hmax w :
  (forall j, (j < 10)%nat ->
             reply_status (spi_script w (spi_count w + j)%nat) = HAL_OK) ->
  MAX30003_ConfigureRegisters hmax w =
  Done HAL_OK
       (after 10 (flat_map (transmission hmax) (map write_frame custom_config)) w) /\
  MAX30003_ConfigureRegistersDefault hmax w =
  Done HAL_OK
       (after 10 (flat_map (transmission hmax) (map write_frame default_config)) w) /\
  Forall2 (fun c d => fst c = fst d /\ Z.land (snd c) (snd d) = snd d)
    custom_config default_config.
Proof.
  intros Hok. split; [| split].
  - rewrite ConfigureRegisters_chain.
    apply (write_chain_all_good hmax custom_config).
    intros j Hj. rewrite Nat.add_comm. apply Hok, Hj.
  - rewrite ConfigureRegistersDefault_chain.
    apply (write_chain_all_good hmax default_config).
    intros j Hj. rewrite Nat.add_comm. apply Hok, Hj.
  - unfold custom_config, default_config.
    repeat (constructor; [split; reflexivity |]). constructor.
Qed.

Lemma ConfigureRegisters_keeps_default_bits_witness :
  MAX30003_ConfigureRegisters hmax0 (boot (fun _ => ok_reply [])) =
  Done HAL_OK
       (after 10 (flat_map (transmission hmax0) (map write_frame custom_config))
          (boot (fun _ => ok_reply []))) /\
  MAX30003_ConfigureRegistersDefault hmax0 (boot (fun _ => ok_reply [])) =
  Done HAL_OK
       (after 10 (flat_map (transmission hmax0) (map write_frame default_config))
          (boot (fun _ => ok_reply []))) /\
  Forall2 (fun c d => fst c = fst d /\ Z.land (snd c) (snd d) = snd d)
    [(0x02, 0xC00003); (0x03, 0xC00003); (0x04, 0xF80004); (0x05, 0x3F0000);
     (0x10, 0x080004); (0x12, 0x004800); (0x14, 0x300000); (0x15, 0x825000);
     (0x1D, 0x3F2300); (0x1E, 0x202400)]
    [(0x02, 0x000003); (0x03, 0x000003); (0x04, 0x780004); (0x05, 0x3F0000);
     (0x10, 0x000004); (0x12, 0x004800); (0x14, 0x300000); (0x15, 0x805000);
     (0x1D, 0x3F2300); (0x1E, 0x202400)].
Proof.
  apply (ConfigureRegisters_keeps_default_bits hmax0 (boot (fun _ => ok_reply []))).
  intros j _. reflexivity.
Defined.

(** ** Configuration assembly: the spec's function and the code *)

Lemma assembled_same e e' : same_up_to_order e e' -> assembled e = assembled e'.
Proof.
  destruct e as [[reg baseDefault] options], e' as [[reg' baseDefault'] options'].
  unfold same_up_to_order. cbn [fst snd]. intros (-> & -> & HP).
  cbn [assembled]. f_equal. apply assemble_Permutation, HP.
Qed.

Lemma map_assembled_same table table' :
  Forall2 same_up_to_order table table' -> map assembled table = map assembled table'.
Proof.
  induction 1 as [| e e' table table' He _ IH]; [reflexivity |].
  cbn [map]. rewrite (assembled_same e e' He), IH. reflexivity.
Qed.

(** The values the code spells inline are the assemblies of their default
    and their options. *)
Lemma custom_config_assembled : custom_config = map assembled config_options.
Proof. reflexivity. Qed.

Lemma default_config_assembled :
  default_config = map assembled (map without_options config_options).
Proof. reflexivity. Qed.

(** C9.  The assembled value is the bitwise OR of the base with every
    option: a bit is set in it exactly when it is set in the base or in an
    option; with no option the base comes back unchanged; reordering the
    options does not change the value (whether or not their bit ranges are
    disjoint).  The code assembles its register values so:
    [MAX30003_ConfigureRegisters] writes to each register the assembly of
    its default and its options, taken in any order, and
    [MAX30003_ConfigureRegistersDefault] writes the assembly of the default
    and no option.  [assemble] takes and returns numbers only. *)
Theorem ConfigureRegisters_assembles hmax w :
  (forall baseDefault options i,
      Z.testbit (assemble baseDefault options) i =
      Z.testbit baseDefault i || existsb (fun o => Z.testbit o i) options) /\
  (forall baseDefault, assemble baseDefault [] = baseDefault) /\
  (forall baseDefault options options',
      Permutation options options' ->
      assemble baseDefault options = assemble baseDefault options') /\
  ((forall j, (j < 10)%nat ->
              reply_status (spi_script w (spi_count w + j)%nat) = HAL_OK) ->
   (forall table,
       Forall2 same_up_to_order config_options table ->
       MAX30003_ConfigureRegisters hmax w =
       Done HAL_OK
            (after 10
               (flat_map (transmission hmax) (map write_frame (map assembled table)))
               w)) /\
   MAX30003_ConfigureRegistersDefault hmax w =
   Done HAL_OK
        (after 10
           (flat_map (transmission hmax)
              (map write_frame (map assembled (map without_options config_options))))
           w)).
Proof.
  split; [| split; [| split]].
  - intros baseDefault options i. apply assemble_testbit.
  - reflexivity.
  - intros baseDefault options options' H. apply assemble_Permutation, H.
  - intros Hok. split.
    + intros table Ht. rewrite <- (map_assembled_same _ _ Ht).
      rewrite <- custom_config_assembled, ConfigureRegisters_chain.
      apply (write_chain_all_good hmax custom_config).
      intros j Hj. rewrite Nat.add_comm. apply Hok, Hj.
    + rewrite <- default_config_assembled, ConfigureRegistersDefault_chain.
      apply (write_chain_all_good hmax default_config).
      intros j Hj. rewrite Nat.add_comm. apply Hok, Hj.
Qed.

Lemma ConfigureRegisters_assembles_witness :
  MAX30003_ConfigureRegisters hmax0 (boot (fun _ => ok_reply [])) =
  Done HAL_OK
       (after 10
          (flat_map (transmission hmax0)
             (map write_frame (map assembled config_options_reversed)))
          (boot (fun _ => ok_reply []))).
Proof.
  apply (proj1 (proj2 (proj2 (proj2 (ConfigureRegisters_assembles hmax0
                                       (boot (fun _ => ok_reply [])))))
                  (fun j _ => eq_refl))).
  unfold config_options_reversed, config_options. cbn [map fst snd].
  repeat (constructor;
          [split; [reflexivity | split; [reflexivity | apply Permutation_rev]] |]).
  constructor.
Defined.
